(** * The templates panel of django-debug-toolbar

    A shallow embedding of [debug_toolbar/panels/templates/panel.py]:
    the capture handler [TemplatesPanel._store_template_info] and the
    report builder [TemplatesPanel.generate_stats], with the properties
    the specification states about them.

    Python objects are modelled by what the two methods observe of them:
    - a context value by its class (the [isinstance] tests of the
      handler), by what [force_text] does on it and by what [repr] does
      on it;
    - a template by the attributes the panel reads or writes; templates
      live in a store and are held by reference, because [generate_stats]
      writes to them;
    - an exception by its class, as far as the [except] clauses tell
      classes apart. *)

From stdpp Require Import gmap strings list fin_maps.
From Stdlib Require Import String Ascii ZArith Lia.

Open Scope string_scope.

(** ** Exceptions and results *)

Module Py.

(** The exception classes the handler distinguishes.
    [SQLQueryTriggered] is the exception of
    [debug_toolbar.panels.sql.tracking], a subclass of [Exception].
    [NonException] stands for the classes below [BaseException] that are
    not below [Exception] ([KeyboardInterrupt], [SystemExit],
    [GeneratorExit]): a clause [except Exception] lets them through. *)
Inductive exn : Type :=
| SQLQueryTriggered
| UnicodeEncodeError
| KeyError
| AttributeError
| OtherException (cls : string)
| NonException (cls : string).

Definition is_Exception (e : exn) : bool :=
  match e with
  | NonException _ => false
  | _ => true
  end.

Inductive res (A : Type) : Type :=
| Ok (a : A)
| Raise (e : exn).
Arguments Ok {A} a.
Arguments Raise {A} e.

Definition res_bind {A B} (r : res A) (k : A -> res B) : res B :=
  match r with
  | Ok a => k a
  | Raise e => Raise e
  end.

(** The value of a result, [d] when it is an exception. *)
Definition ok_or {A} (d : A) (r : res A) : A :=
  match r with
  | Ok a => a
  | Raise _ => d
  end.

(** [mapM] for [res], left to right: the first exception wins. *)
Fixpoint res_map {A B} (f : A -> res B) (l : list A) : res (list B) :=
  match l with
  | [] => Ok []
  | a :: l' =>
      res_bind (f a) (fun b =>
      res_bind (res_map f l') (fun bs => Ok (b :: bs)))
  end.

(** [str.lower()] on the ASCII letters. *)
Definition lower_ascii (c : ascii) : ascii :=
  let n := nat_of_ascii c in
  if (65 <=? n)%nat && (n <=? 90)%nat then ascii_of_nat (n + 32) else c.

Fixpoint lower (s : string) : string :=
  match s with
  | EmptyString => EmptyString
  | String c s' => String (lower_ascii c) (lower s')
  end.

(** [sorted(l, key=key)] for string keys (insertion sort on
    [String.leb], stable). *)
Fixpoint insert_sorted {A} (key : A -> string) (x : A) (l : list A) : list A :=
  match l with
  | [] => [x]
  | y :: l' =>
      if String.leb (key x) (key y) then x :: l
      else y :: insert_sorted key x l'
  end.

Definition sorted_by {A} (key : A -> string) (l : list A) : list A :=
  foldr (insert_sorted key) [] l.

Definition sorted (l : list string) : list string := sorted_by id l.

(** [sep.join(l)]. *)
Definition join (sep : string) (l : list string) : string :=
  String.concat sep l.

Definition newline : string := String (ascii_of_nat 10) EmptyString.

End Py.

Import Py.

(** ** Context values *)

(** [value.model]: the attributes the queryset placeholder reads. *)
Record Model : Type := mkModel {
  app_label : string;      (* value.model._meta.app_label *)
  model_name : string      (* value.model.__name__ *)
}.

(** The classes the handler tests with [isinstance].  A queryset carries
    the name of its own class, which may be a subclass of [QuerySet] or
    [RawQuerySet], and its model, which is [None] for a queryset built
    without one. *)
Inductive ValueClass : Type :=
| HttpRequest
| PyList
| PyTuple
| QuerySetLike (class_name : string) (model : option Model)
| OtherClass.

(** What [force_text(value)] does.  [NeedsQuery s] is a value whose text
    is [s] but whose coercion goes to the database: while recording is
    switched off the cursor raises [SQLQueryTriggered] instead. *)
Inductive Coercion : Type :=
| Text (s : string)
| NeedsQuery (s : string)
| CoercionRaises (e : exn).

Record Value : Type := mkValue {
  v_class : ValueClass;
  v_text : Coercion;       (* force_text(value) *)
  v_repr : res string      (* repr(value), as pformat calls it *)
}.

(** An entry of [temp_layer]: a placeholder string or the value itself. *)
Inductive TempValue : Type :=
| Placeholder (s : string)
| Kept (v : Value).

(** A context layer, an element of [context.dicts]: its [id()] and, when
    it has an [items] attribute, its mapping. *)
Record Layer : Type := mkLayer {
  layer_id : Z;
  layer_items : option (gmap string Value)
}.

(** The key of [seen_contexts]: [(id(layer), tuple(sorted(layer.keys())))]. *)
Abbreviation CtxKey := (Z * list string)%type.

(** ** Templates *)

(** [template.name]: a string, [None], or something else that is not a
    string. *)
Inductive PyName : Type :=
| NameStr (s : string)
| NameNone
| NameOther.

(** [template.origin]: the attribute may be missing, be [None], or be an
    origin object with its [name] ([None] when the name is [None]). *)
Inductive OriginAttr : Type :=
| NoOriginAttr
| OriginNone
| Origin (name : option string).

Record Engine : Type := mkEngine { dirs : list string }.

Record Template : Type := mkTemplate {
  t_name : PyName;
  t_origin : OriginAttr;
  t_origin_name : option string;  (* unset until generate_stats sets it *)
  t_engine : option Engine;       (* None: missing or falsy *)
  t_backend : option Engine       (* None: missing, or None itself *)
}.

(** Templates are held by reference.  The store is read with the total
    lookup [!!!]: a reference the store does not hold reads as the
    object below, which has none of the attributes. *)
Global Instance Template_inhabited : Inhabited Template :=
  populate (mkTemplate NameNone NoOriginAttr None None None).

Abbreviation loc := positive.

(** [context.context_processors], an ordered mapping from the dotted name
    of a processor to the mapping it returned. *)
Definition ContextProcessors : Type := list (string * gmap string Value).

Record Context : Type := mkContext {
  c_dicts : list Layer;
  c_context_processors : option ContextProcessors  (* None: no such attribute *)
}.

(** The keyword arguments of one [template_rendered] signal. *)
Record Event : Type := mkEvent {
  ev_template : loc;
  ev_context : Context
}.

(** An element of [self.templates]: the [kwargs] after the handler has
    replaced its context. *)
Record RenderRecord : Type := mkRecord {
  rr_template : loc;
  rr_context : list string;
  rr_context_processors : option ContextProcessors
}.

(** An element of the report's [templates]: the dict [info]. *)
Record Info : Type := mkInfo {
  info_template : loc;
  info_context : option string    (* None: no 'context' key *)
}.

Record Stats : Type := mkStats {
  st_templates : list Info;
  st_template_dirs : list string;
  st_context_processors : option ContextProcessors
}.

(** ** The state *)

(** Everything the two methods read or write: the recording switch of
    [debug_toolbar.panels.sql.tracking], the template objects, the
    panel's own attributes, the toolbar's configuration flag and the
    sink of [record_stats].  [redaction_runs] is a ghost field: it lists
    the cache keys for which the redaction block of the handler (lines
    98 to 137) was entered, in order. *)
Record State : Type := mkState {
  recording_enabled : bool;
  heap : gmap loc Template;
  templates : list RenderRecord;
  seen_contexts : gmap CtxKey string;
  show_template_context : bool;
  stats : option Stats;
  redaction_runs : list CtxKey
}.

Definition set_recording (b : bool) (s : State) : State :=
  mkState b (heap s) (templates s) (seen_contexts s)
          (show_template_context s) (stats s) (redaction_runs s).

Definition set_heap (h : gmap loc Template) (s : State) : State :=
  mkState (recording_enabled s) h (templates s) (seen_contexts s)
          (show_template_context s) (stats s) (redaction_runs s).

Definition set_templates (l : list RenderRecord) (s : State) : State :=
  mkState (recording_enabled s) (heap s) l (seen_contexts s)
          (show_template_context s) (stats s) (redaction_runs s).

Definition set_seen_contexts (m : gmap CtxKey string) (s : State) : State :=
  mkState (recording_enabled s) (heap s) (templates s) m
          (show_template_context s) (stats s) (redaction_runs s).

Definition set_stats (r : option Stats) (s : State) : State :=
  mkState (recording_enabled s) (heap s) (templates s) (seen_contexts s)
          (show_template_context s) r (redaction_runs s).

Definition set_redaction_runs (l : list CtxKey) (s : State) : State :=
  mkState (recording_enabled s) (heap s) (templates s) (seen_contexts s)
          (show_template_context s) (stats s) l.

(** A panel as [__init__] leaves it, in a process where recording is on. *)
Definition new_panel (h : gmap loc Template) (show : bool) : State :=
  mkState true h [] ∅ show None [].

(** ** The monad of the embedding: state and exceptions

    A raised exception keeps the state reached so far, as in Python. *)
Definition M (A : Type) : Type := State -> res A * State.

Definition ret {A} (a : A) : M A := fun s => (Ok a, s).

Definition raise {A} (e : exn) : M A := fun s => (Raise e, s).

Definition bind {A B} (m : M A) (k : A -> M B) : M B :=
  fun s =>
    match m s with
    | (Ok a, s') => k a s'
    | (Raise e, s') => (Raise e, s')
    end.

Definition gets {A} (f : State -> A) : M A := fun s => (Ok (f s), s).

Definition modify (f : State -> State) : M unit := fun s => (Ok tt, f s).

Definition lift {A} (r : res A) : M A := fun s => (r, s).

Notation "'let*' x ':=' m 'in' k" := (bind m (fun x => k))
  (at level 10, x name, m at level 100, k at level 200).
Notation "'do' m 'then' k" := (bind m (fun _ => k))
  (at level 10, m at level 100, k at level 200).

(** [try: body / except ...: handle / else: orelse / finally: final].
    [handle e] is [None] when no clause matches [e]; the [finally] block
    runs on every path, and an exception of its own replaces the result. *)
Definition try_except_else_finally {A B}
    (body : M A) (handle : exn -> option (M B)) (orelse : A -> M B)
    (final : M unit) : M B :=
  fun s =>
    let '(r, s1) := body s in
    let '(r2, s2) :=
      match r with
      | Ok a => orelse a s1
      | Raise e =>
          match handle e with
          | Some h => h s1
          | None => (Raise e, s1)
          end
      end in
    let '(rf, s3) := final s2 in
    match rf with
    | Ok _ => (r2, s3)
    | Raise e => (Raise e, s3)
    end.

(** [try / except / else], without a [finally] block. *)
Definition try_except_else {A B}
    (body : M A) (handle : exn -> option (M B)) (orelse : A -> M B) : M B :=
  try_except_else_finally body handle orelse (ret tt).

(** ** The panel *)

Section Panel.

(** Library functions the panel calls and whose text output is not
    modelled: [repr] of a text string (its quoting), the layout
    [pprint.pformat] gives to the sorted items of a dict once keys and
    values are rendered, and [os.path.normpath]. *)
Variable repr_str : string -> string.
Variable layout : list (string * string) -> string.
Variable normpath : string -> string.

(** *** Collaborators outside the file *)

(** Modelled from the spec: [recording] of
    [debug_toolbar.panels.sql.tracking], the control of the shared
    forbidden-operation signal: [recording(False)] disables the detection
    switch and [recording(True)] re-enables it. *)
Definition recording (v : bool) : M unit := modify (set_recording v).

(** Modelled from the spec: [Panel.record_stats], the sink that stores
    the report handed to it. *)
Definition record_stats (report : Stats) : M unit :=
  modify (set_stats (Some report)).

(** [force_text(value)]: with recording off, a coercion that goes to the
    database raises [SQLQueryTriggered]. *)
Definition force_text (value : Value) : M string :=
  fun s =>
    match v_text value with
    | Text t => (Ok t, s)
    | NeedsQuery t =>
        if recording_enabled s then (Ok t, s) else (Raise SQLQueryTriggered, s)
    | CoercionRaises e => (Raise e, s)
    end.

(** *** [_store_template_info]: redaction of one layer *)

Definition isinstance_HttpRequest (value : Value) : bool :=
  match v_class value with HttpRequest => true | _ => false end.

Definition isinstance_list (value : Value) : bool :=
  match v_class value with PyList => true | _ => false end.

Definition isinstance_tuple (value : Value) : bool :=
  match v_class value with PyTuple => true | _ => false end.

(** Lines 119 to 131: the coercion attempt. *)
Definition coerce_value (key : string) (value : Value)
    (temp_layer : gmap string TempValue) : M (gmap string TempValue) :=
  try_except_else_finally
    (do recording false then force_text value)
    (fun e =>
       match e with
       | SQLQueryTriggered =>
           Some (ret (<[key := Placeholder "<<triggers database query>>"]> temp_layer))
       | UnicodeEncodeError =>
           Some (ret (<[key := Placeholder "<<unicode encode error>>"]> temp_layer))
       | _ =>
           if is_Exception e
           then Some (ret (<[key := Placeholder "<<unhandled exception>>"]> temp_layer))
           else None
       end)
    (fun _ => ret (<[key := Kept value]> temp_layer))
    (recording true).

(** Lines 103 to 131: the body of the loop over the items of a layer. *)
Definition redact_value (key : string) (value : Value)
    (temp_layer : gmap string TempValue) : M (gmap string TempValue) :=
  if isinstance_HttpRequest value then
    ret (<[key := Placeholder "<<request>>"]> temp_layer)
  else if String.eqb key "sql_queries" && isinstance_list value then
    ret (<[key := Placeholder "<<sql_queries>>"]> temp_layer)
  else if String.eqb key "LANGUAGES" && isinstance_tuple value then
    ret (<[key := Placeholder "<<languages>>"]> temp_layer)
  else
    match v_class value with
    | QuerySetLike class_name model =>
        match model with
        | None => raise AttributeError
        | Some m =>
            let model_name := app_label m ++ "." ++ model_name m in
            ret (<[key := Placeholder
                            ("<<" ++ lower class_name ++ " of " ++ model_name ++ ">>")]>
                   temp_layer)
        end
    | _ => coerce_value key value temp_layer
    end.

(** Lines 99 to 131: [for key, value in context_layer.items()]. *)
Fixpoint redact_items (items : list (string * Value))
    (temp_layer : gmap string TempValue) : M (gmap string TempValue) :=
  match items with
  | [] => ret temp_layer
  | (key, value) :: rest =>
      let* temp_layer' := redact_value key value temp_layer in
      redact_items rest temp_layer'
  end.

(** [repr] of an entry of [temp_layer]. *)
Definition repr_temp (tv : TempValue) : res string :=
  match tv with
  | Placeholder s => Ok (repr_str s)
  | Kept v => v_repr v
  end.

(** [pformat(temp_layer)]: the items sorted by key, each value rendered
    with [repr], then laid out.  An exception of a [repr] propagates. *)
Definition pformat (temp_layer : gmap string TempValue) : res string :=
  res_bind
    (res_map (fun kv => res_bind (repr_temp (snd kv)) (fun r => Ok (fst kv, r)))
             (sorted_by fst (map_to_list temp_layer)))
    (fun rendered => Ok (layout rendered)).

(** [(id(context_layer), tuple(sorted(context_layer.keys())))]. *)
Definition context_layer_id (id : Z) (d : gmap string Value) : CtxKey :=
  (id, sorted (map fst (map_to_list d))).

(** Lines 98 to 137: the redaction block, entered when the key is not in
    [seen_contexts].  [force_text] of the text [pformat] returns is that
    text. *)
Definition redact_and_cache (k : CtxKey) (d : gmap string Value) : M unit :=
  do modify (fun s => set_redaction_runs (redaction_runs s ++ [k])%list s) then
  let* temp_layer := redact_items (map_to_list d) ∅ in
  try_except_else
    (lift (pformat temp_layer))
    (fun e => match e with UnicodeEncodeError => Some (ret tt) | _ => None end)
    (fun prettified_layer =>
       modify (fun s => set_seen_contexts (<[k := prettified_layer]> (seen_contexts s)) s)).

(** Lines 89 to 138: the body of the loop over [context.dicts]. *)
Definition store_layer (context_layer : Layer) (context_list : list string)
    : M (list string) :=
  match layer_items context_layer with
  | None => ret context_list
  | Some d =>
      let k := context_layer_id (layer_id context_layer) d in
      let* seen := gets seen_contexts in
      do (match seen !! k with
          | None => redact_and_cache k d
          | Some _ => ret tt
          end) then
      let* seen' := gets seen_contexts in
      match seen' !! k with
      | Some text => ret (context_list ++ [text])%list
      | None => raise KeyError
      end
  end.

(** Lines 87 to 138: [for context_layer in context.dicts]. *)
Fixpoint store_layers (layers : list Layer) (context_list : list string)
    : M (list string) :=
  match layers with
  | [] => ret context_list
  | context_layer :: rest =>
      let* context_list' := store_layer context_layer context_list in
      store_layers rest context_list'
  end.

(** Lines 83 and 84: the test of the skip. *)
Definition is_toolbar_template (name : PyName) : bool :=
  match name with
  | NameStr s => String.prefix "debug_toolbar/" s
  | _ => false
  end.

(** [TemplatesPanel._store_template_info]. *)
Definition _store_template_info (ev : Event) : M unit :=
  let template := ev_template ev in
  let context := ev_context ev in
  let* t := gets (fun s => heap s !!! template) in
  if is_toolbar_template (t_name t) then ret tt
  else
    let* context_list := store_layers (c_dicts context) [] in
    modify (fun s =>
      set_templates
        (templates s ++ [mkRecord template context_list (c_context_processors context)])%list
        s).

(** *** [generate_stats] *)

Definition no_origin : string := "No origin".

(** Line 179: [hasattr(template, 'origin') and template.origin and
    template.origin.name]; the value lines 180 and 182 assign. *)
Definition origin_display (t : Template) : string :=
  match t_origin t with
  | Origin (Some name) => if String.eqb name "" then no_origin else name
  | _ => no_origin
  end.

Definition set_origin_name (name : string) (t : Template) : Template :=
  mkTemplate (t_name t) (t_origin t) (Some name) (t_engine t) (t_backend t).

(** Lines 176 to 188: the body of the loop over [self.templates]. *)
Definition template_info (template_data : RenderRecord) : M Info :=
  let template := rr_template template_data in
  let* t := gets (fun s => heap s !!! template) in
  do modify (fun s =>
       set_heap (<[template := set_origin_name (origin_display t) t]> (heap s)) s) then
  let* show := gets show_template_context in
  if show then
    ret (mkInfo template (Some (join newline (rr_context template_data))))
  else
    ret (mkInfo template None).

Fixpoint template_infos (records : list RenderRecord) (template_context : list Info)
    : M (list Info) :=
  match records with
  | [] => ret template_context
  | template_data :: rest =>
      let* info := template_info template_data in
      template_infos rest (template_context ++ [info])%list
  end.

(** Line 195: [getattr(template, 'engine', None) or getattr(template,
    'backend')], then [.dirs]. *)
Definition engine_backend_dirs (t : Template) : M (list string) :=
  match t_engine t with
  | Some engine => ret (dirs engine)
  | None =>
      match t_backend t with
      | Some backend => ret (dirs backend)
      | None => raise AttributeError
      end
  end.

(** [TemplatesPanel.generate_stats]. *)
Definition generate_stats : M unit :=
  let* records := gets templates in
  let* template_context := template_infos records [] in
  let* shared :=
    match records with
    | first :: _ =>
        let* t := gets (fun s => heap s !!! rr_template first) in
        let* template_dirs := engine_backend_dirs t in
        ret (rr_context_processors first, template_dirs)
    | [] => ret (None, [])
    end in
  record_stats (mkStats template_context (map normpath (snd shared)) (fst shared)).

(** *** The life of a panel

    What can happen to the state during one request: the handler
    processes a layer, the handler runs on a render event (an exception
    it raises goes to the caller of the signal and the panel stays as the
    handler left it), the toolbar asks for the report. *)
Inductive panel_step : State -> State -> Prop :=
| step_layer (context_layer : Layer) (context_list : list string) (s : State) :
    panel_step s (snd (store_layer context_layer context_list s))
| step_render (ev : Event) (s : State) :
    panel_step s (snd (_store_template_info ev s))
| step_stats (s : State) :
    panel_step s (snd (generate_stats s)).

(** The state after a sequence of render events. *)
Definition run_events (evs : list Event) (s : State) : State :=
  foldl (fun s ev => snd (_store_template_info ev s)) s evs.

End Panel.

(** How many times the redaction block was entered for a key. *)
Definition runs_for (k : CtxKey) (s : State) : nat :=
  List.length (filter (fun k' => k' = k) (redaction_runs s)).

(** ** Pure readings of the redaction

    What [coerce_value] and [redact_value] store under a key, as
    functions of the key and the value alone.  The lemmas
    [coerce_value_spec] and [redact_value_spec] below relate them to the
    monadic definitions; they serve to state lemmas, not to define the
    panel. *)

Definition coerced (value : Value) : res TempValue :=
  match v_text value with
  | Text _ => Ok (Kept value)
  | NeedsQuery _ => Ok (Placeholder "<<triggers database query>>")
  | CoercionRaises SQLQueryTriggered => Ok (Placeholder "<<triggers database query>>")
  | CoercionRaises UnicodeEncodeError => Ok (Placeholder "<<unicode encode error>>")
  | CoercionRaises (NonException cls) => Raise (NonException cls)
  | CoercionRaises _ => Ok (Placeholder "<<unhandled exception>>")
  end.

Definition redacted (key : string) (value : Value) : res TempValue :=
  match v_class value with
  | HttpRequest => Ok (Placeholder "<<request>>")
  | PyList =>
      if String.eqb key "sql_queries" then Ok (Placeholder "<<sql_queries>>")
      else coerced value
  | PyTuple =>
      if String.eqb key "LANGUAGES" then Ok (Placeholder "<<languages>>")
      else coerced value
  | QuerySetLike class_name None => Raise AttributeError
  | QuerySetLike class_name (Some m) =>
      Ok (Placeholder ("<<" ++ lower class_name ++ " of "
                         ++ (app_label m ++ "." ++ model_name m) ++ ">>"))
  | OtherClass => coerced value
  end.

(** The store after the loop of [generate_stats] over the records, and
    the entry the loop builds for a record. *)
Definition label_templates (records : list RenderRecord) (h : gmap loc Template)
    : gmap loc Template :=
  foldl (fun h r =>
           <[rr_template r :=
               set_origin_name (origin_display (h !!! rr_template r))
                               (h !!! rr_template r)]> h)
        h records.

Definition info_of (show : bool) (r : RenderRecord) : Info :=
  mkInfo (rr_template r)
         (if show then Some (join newline (rr_context r)) else None).

Definition engine_dirs (t : Template) : option (list string) :=
  match t_engine t with
  | Some engine => Some (dirs engine)
  | None =>
      match t_backend t with
      | Some backend => Some (dirs backend)
      | None => None
      end
  end.


(** ** Invariants used in the proofs *)

(** What the loop over the layers leaves untouched. *)
Definition same_records (s s' : State) : Prop :=
  heap s' = heap s /\ templates s' = templates s /\
  show_template_context s' = show_template_context s /\ stats s' = stats s.

(** The invariant of a cached key: its text stays, and the redaction
    block is not entered for it again. *)
Definition cached (k : CtxKey) (text : string) (n : nat) (s : State) : Prop :=
  seen_contexts s !! k = Some text /\ runs_for k s = n.

(** ** Concrete inputs

    Instances of the three library functions, which agree with Python 3
    on the strings used below (short dicts are laid out on one line, the
    paths are already normal), and a small store, some values and some
    render events. *)
Module Sample.

Definition repr_str (s : string) : string := "'" ++ s ++ "'".

Definition layout (items : list (string * string)) : string :=
  "{" ++ join ", " (map (fun kv => repr_str (fst kv) ++ ": " ++ snd kv) items) ++ "}".

Definition normpath (path : string) : string := path.

(** An [int]. *)
Definition number (n : string) : Value := mkValue OtherClass (Text n) (Ok n).


Definition queries_list : Value := mkValue PyList (Text "[]") (Ok "[]").


(** An object with a text, whose [repr] cannot be encoded. *)
Definition unprintable : Value :=
  mkValue OtherClass (Text "cafe") (Raise UnicodeEncodeError).

(** An object with a text, whose [__repr__] raises [ValueError]. *)
Definition broken_repr : Value :=
  mkValue OtherClass (Text "x") (Raise (OtherException "ValueError")).

Definition engine : Engine := mkEngine ["/srv/app/templates"].

Definition template_a : Template :=
  mkTemplate (NameStr "a.html") (Origin (Some "/srv/app/templates/a.html"))
             None (Some engine) None.

Definition template_toolbar : Template :=
  mkTemplate (NameStr "debug_toolbar/base.html")
             (Origin (Some "/srv/debug_toolbar/templates/debug_toolbar/base.html"))
             None (Some engine) None.

(** A template made from a string: no name, no origin. *)
Definition template_unnamed : Template :=
  mkTemplate NameNone OriginNone None (Some engine) None.

Definition store : gmap loc Template :=
  <[1%positive := template_a]>
    (<[2%positive := template_toolbar]>
       (<[3%positive := template_unnamed]> ∅)).

Definition panel : State := new_panel store true.

Definition plain_dict : gmap string Value :=
  <["x" := number "1"]> (<["a" := number "2"]> ∅).




Definition unprintable_dict : gmap string Value := <["x" := unprintable]> ∅.

Definition broken_dict : gmap string Value := <["x" := broken_repr]> ∅.

Definition plain_layer : Layer := mkLayer 7 (Some plain_dict).

(** The same dict object later, with the same keys and other values. *)
Definition changed_dict : gmap string Value :=
  <["x" := number "5"]> (<["a" := number "6"]> ∅).

Definition changed_layer : Layer := mkLayer 7 (Some changed_dict).

Definition unprintable_layer : Layer := mkLayer 8 (Some unprintable_dict).

Definition broken_layer : Layer := mkLayer 9 (Some broken_dict).

Definition render_a : Event := mkEvent 1 (mkContext [plain_layer; plain_layer] None).

Definition render_toolbar : Event := mkEvent 2 (mkContext [plain_layer] None).

Definition render_unnamed : Event := mkEvent 3 (mkContext [plain_layer] None).

Definition render_unnamed_broken : Event := mkEvent 3 (mkContext [broken_layer] None).

Definition render_unprintable : Event := mkEvent 1 (mkContext [unprintable_layer] None).

Definition render_broken : Event := mkEvent 1 (mkContext [broken_layer] None).

(** A lazy object whose text needs a database query. *)
Definition lazy_user : Value :=
  mkValue OtherClass (NeedsQuery "alice") (Ok "<SimpleLazyObject: alice>").

Definition unencodable : Value :=
  mkValue OtherClass (CoercionRaises UnicodeEncodeError) (Ok "<Odd>").

Definition failing : Value :=
  mkValue OtherClass (CoercionRaises (OtherException "ZeroDivisionError")) (Ok "<Odd>").

Definition interrupted : Value :=
  mkValue OtherClass (CoercionRaises (NonException "KeyboardInterrupt")) (Ok "<Slow>").

(** The panel after [a.html] was rendered. *)
Definition panel_after_a : State :=
  snd (_store_template_info repr_str layout render_a panel).

End Sample.

(** ** The rest of the module *)

(** *** [nav_subtitle] *)

(** Lines 153 to 157: the name of the template of the first record, the
    empty string when there is no record. *)
Definition nav_subtitle (s : State) : PyName :=
  match templates s with
  | first :: _ => t_name (heap s !!! rr_template first)
  | [] => NameStr ""
  end.

(** The cache keys of the mapping-like layers of a context, in order. *)
Definition mapping_keys (layers : list Layer) : list CtxKey :=
  omap (fun context_layer =>
          match layer_items context_layer with
          | Some d => Some (context_layer_id (layer_id context_layer) d)
          | None => None
          end) layers.

(** *** The patch of [Template._render]

    Lines 28 to 30.  A function is known by its identity. *)
Inductive RenderFn : Type :=
| instrumented_test_render
| other_render (name : string).

Global Instance RenderFn_eq_dec : EqDecision RenderFn.
Proof. solve_decision. Defined.

(** The two attributes of the class [Template] the patch touches. *)
Record TemplateClass : Type := mkTemplateClass {
  _render : RenderFn;
  original_render : option RenderFn     (* None: no such attribute *)
}.

Definition patch_render (c : TemplateClass) : TemplateClass :=
  if decide (_render c <> instrumented_test_render) then
    mkTemplateClass instrumented_test_render (Some (_render c))
  else c.

(** *** [RequestContext.bind_template] *)

(** A context processor: its dotted name and what calling it on the
    request does. *)
Record Processor : Type := mkProcessor {
  p_module : string;                    (* processor.__module__ *)
  p_name : string;                      (* processor.__name__ *)
  p_call : res (gmap string Value)      (* processor(self.request) *)
}.

(** The attributes of a [RequestContext] that [bind_template] reads or
    writes.  [_processors_index] is an index into [dicts] that Django
    sets, at construction, to a position it then fills with an empty
    dict. *)
Record RequestContext : Type := mkRequestContext {
  rc_template : option loc;                       (* self.template *)
  rc_processors : list Processor;                 (* self._processors *)
  rc_processors_index : nat;                      (* self._processors_index *)
  rc_dicts : list (gmap string Value);            (* self.dicts *)
  rc_context_processors : option ContextProcessors  (* None: not set yet *)
}.

(** The template handed to [bind_template]: its reference and
    [template.engine.template_context_processors]. *)
Record BoundTemplate : Type := mkBoundTemplate {
  bt_template : loc;
  bt_engine_processors : list Processor
}.

Definition set_rc_template (t : option loc) (rc : RequestContext) : RequestContext :=
  mkRequestContext t (rc_processors rc) (rc_processors_index rc) (rc_dicts rc)
                   (rc_context_processors rc).

Definition set_rc_dicts (ds : list (gmap string Value)) (rc : RequestContext)
    : RequestContext :=
  mkRequestContext (rc_template rc) (rc_processors rc) (rc_processors_index rc) ds
                   (rc_context_processors rc).

Definition set_rc_context_processors (cp : option ContextProcessors)
    (rc : RequestContext) : RequestContext :=
  mkRequestContext (rc_template rc) (rc_processors rc) (rc_processors_index rc)
                   (rc_dicts rc) cp.

(** [od[name] = context] on an [OrderedDict]: a name already present
    keeps its place and takes the new value, a new name goes last. *)
Fixpoint odict_set (name : string) (context : gmap string Value)
    (od : ContextProcessors) : ContextProcessors :=
  match od with
  | [] => [(name, context)]
  | (name', context') :: od' =>
      if String.eqb name' name then (name, context) :: od'
      else (name', context') :: odict_set name context od'
  end.

(** [l[i] = x] on a list: [IndexError] out of range. *)
Definition list_setitem {A} (l : list A) (i : nat) (x : A) : res (list A) :=
  if decide (i < List.length l) then Ok (<[i := x]> l)
  else Raise (OtherException "IndexError").

(** Lines 47 to 51: the loop over the processors.  [updates.update(context)]
    lets the keys of [context] win.  Line 45 has set
    [self.context_processors] to an empty [OrderedDict] before the loop;
    a processor is taken to return a dict when it returns. *)
Fixpoint run_processors (processors : list Processor) (updates : gmap string Value)
    (rc : RequestContext) : res (gmap string Value) * RequestContext :=
  match processors with
  | [] => (Ok updates, rc)
  | processor :: rest =>
      let name := p_module processor ++ "." ++ p_name processor in
      match p_call processor with
      | Raise e => (Raise e, rc)
      | Ok context =>
          let od := default [] (rc_context_processors rc) in
          run_processors rest (context ∪ updates)
            (set_rc_context_processors (Some (odict_set name context od)) rc)
      end
  end.

(** Lines 38 to 52: the generator up to its [yield]. *)
Definition bind_template_enter (template : BoundTemplate) (rc : RequestContext)
    : res unit * RequestContext :=
  match rc_template rc with
  | Some _ => (Raise (OtherException "RuntimeError"), rc)
  | None =>
      let rc1 := set_rc_template (Some (bt_template template)) rc in
      let processors := (bt_engine_processors template ++ rc_processors rc1)%list in
      let rc2 := set_rc_context_processors (Some []) rc1 in
      match run_processors processors ∅ rc2 with
      | (Raise e, rc3) => (Raise e, rc3)
      | (Ok updates, rc3) =>
          match list_setitem (rc_dicts rc3) (rc_processors_index rc3) updates with
          | Ok ds => (Ok tt, set_rc_dicts ds rc3)
          | Raise e => (Raise e, rc3)
          end
      end
  end.

(** Lines 56 to 59: the [finally] block of the generator. *)
Definition bind_template_exit (rc : RequestContext) : res unit * RequestContext :=
  let rc1 := set_rc_template None rc in
  match list_setitem (rc_dicts rc1) (rc_processors_index rc1) ∅ with
  | Ok ds => (Ok tt, set_rc_dicts ds rc1)
  | Raise e => (Raise e, rc1)
  end.

(** [with context.bind_template(template): body], through
    [contextlib.contextmanager]: an exception before the [yield] leaves
    without running the body or the [finally] block; after the body,
    whether it returned or raised, the [finally] block runs, and an
    exception of its own replaces the outcome of the body. *)
Definition with_bind_template {A} (template : BoundTemplate)
    (body : RequestContext -> res A * RequestContext) (rc : RequestContext)
    : res A * RequestContext :=
  match bind_template_enter template rc with
  | (Raise e, rc1) => (Raise e, rc1)
  | (Ok _, rc1) =>
      let '(r, rc2) := body rc1 in
      match bind_template_exit rc2 with
      | (Ok _, rc3) => (r, rc3)
      | (Raise e, rc3) => (Raise e, rc3)
      end
  end.


(** What every step of a panel keeps: the names of the templates, the
    records captured so far, recording when it is on, and the cache. *)
Definition extends (s s' : State) : Prop :=
  (forall l, t_name (heap s' !!! l) = t_name (heap s !!! l)) /\
  templates s `prefix_of` templates s' /\
  (recording_enabled s = true -> recording_enabled s' = true) /\
  seen_contexts s ⊆ seen_contexts s'.

(** Readings of the loop over the processors: the dotted name of a
    processor, the dict it returns, the dict [updates] and the mapping
    [context_processors] after the loop. *)
Definition processor_name (processor : Processor) : string :=
  p_module processor ++ "." ++ p_name processor.

Definition processor_context (processor : Processor) : gmap string Value :=
  ok_or ∅ (p_call processor).

Definition merged_updates (processors : list Processor)
    (updates : gmap string Value) : gmap string Value :=
  foldl (fun updates processor => processor_context processor ∪ updates)
        updates processors.

Definition recorded_processors (processors : list Processor)
    (od : ContextProcessors) : ContextProcessors :=
  foldl (fun od processor =>
           odict_set (processor_name processor) (processor_context processor) od)
        od processors.

(** A processor that returns. *)
Definition returns (processor : Processor) : Prop :=
  exists context, p_call processor = Ok context.

(** The store holds a labelled object at a reference. *)
Definition labelled (h : gmap loc Template) (l : loc) : Prop :=
  exists t, h !! l = Some t /\ t_origin_name t = Some (origin_display t).

(** ** More concrete inputs *)
Module Sample2.

Definition languages : Value :=
  mkValue PyTuple (Text "(('en', 'English'),)") (Ok "(('en', 'English'),)").

Definition languages_dict : gmap string Value := <["LANGUAGES" := languages]> ∅.



Definition mixed_dict : gmap string Value :=
  <["user" := Sample.lazy_user]>
    (<["x" := Sample.number "1"]>
       (<["odd" := Sample.unencodable]> (<["bad" := Sample.failing]> ∅))).

(** A template object with neither an engine nor a backend, and one with
    a backend only. *)
Definition template_bare : Template :=
  mkTemplate (NameStr "bare.html") OriginNone None None None.

Definition backend : Engine := mkEngine ["/srv/app/jinja2"].

Definition template_jinja : Template :=
  mkTemplate (NameStr "j.html") NoOriginAttr None None (Some backend).

Definition store : gmap loc Template :=
  <[4%positive := template_bare]> (<[5%positive := template_jinja]> Sample.store).

Definition panel_bare : State :=
  mkState true store [mkRecord 4 [] None] ∅ true None [].

Definition panel_jinja : State :=
  mkState true store [mkRecord 5 ["{}"] None; mkRecord 1 [] (Some [])] ∅ true None [].

(** Layers of a context, one of them not mapping-like. *)
Definition no_items_layer : Layer := mkLayer 11 None.

Definition render_layers : Event :=
  mkEvent 1 (mkContext [Sample.plain_layer; no_items_layer; Sample.changed_layer]
                       (Some [])).

(** Context processors. *)
Definition debug_processor : Processor :=
  mkProcessor "django.template.context_processors" "debug"
    (Ok (<["debug" := Sample.number "True"]>
           (<["sql_queries" := Sample.queries_list]> ∅))).

Definition i18n_processor : Processor :=
  mkProcessor "django.template.context_processors" "i18n"
    (Ok (<["LANGUAGES" := languages]> ∅)).

Definition site_processor : Processor :=
  mkProcessor "app.context_processors" "site"
    (Ok (<["debug" := Sample.number "False"]> ∅)).

Definition broken_processor : Processor :=
  mkProcessor "app.context_processors" "broken"
    (Raise (OtherException "KeyError")).

Definition bound_template : BoundTemplate :=
  mkBoundTemplate 1 [debug_processor; i18n_processor].

Definition request_context : RequestContext :=
  mkRequestContext None [site_processor] 1
    [<["True" := Sample.number "True"]> ∅; ∅; <["x" := Sample.number "1"]> ∅]
    None.

Definition failing_context : RequestContext :=
  mkRequestContext None [broken_processor; site_processor] 1 [∅; ∅] None.

Definition bound_context : RequestContext :=
  mkRequestContext (Some 2%positive) [] 1 [∅; ∅] None.

(** A body that raises after pushing a layer. *)
Definition failing_body (rc : RequestContext) : res unit * RequestContext :=
  (Raise (OtherException "TemplateSyntaxError"),
   set_rc_dicts (rc_dicts rc ++ [∅])%list rc).

Definition template_class : TemplateClass :=
  mkTemplateClass (other_render "Template._render") None.

End Sample2.

(** ** Proofs *)

Section Properties.

Variable repr_str : string -> string.
Variable layout : list (string * string) -> string.
Variable normpath : string -> string.

Ltac monad_unfold :=
  unfold try_except_else, try_except_else_finally, bind, ret, raise,
    gets, modify, lift in *.

(** *** The recording switch *)

Lemma set_recording_same (s : State) :
  set_recording (recording_enabled s) s = s.
Proof. by destruct s. Qed.

Lemma set_recording_twice (b b' : bool) (s : State) :
  set_recording b (set_recording b' s) = set_recording b s.
Proof. done. Qed.

(** The coercion attempt leaves the state of the panel alone and the
    switch on, whatever its outcome. *)
Lemma coerce_value_state key value temp_layer (s : State) :
  snd (coerce_value key value temp_layer s) = set_recording true s.
Proof.
  unfold coerce_value, recording, force_text. monad_unfold. simpl.
  destruct (v_text value) as [t | t | e]; simpl; try done.
  destruct e; simpl; done.
Qed.

(** C2: on every exit path of the coercion attempt (the value kept, one
    of the three placeholders substituted, or an exception that no clause
    catches propagating) recording is switched back on afterwards. *)
Theorem coercion_reenables_recording :
  forall (key : string) (value : Value) (temp_layer : gmap string TempValue)
         (s : State),
    recording_enabled (snd (coerce_value key value temp_layer s)) = true.
Proof.
  intros key value temp_layer s. by rewrite coerce_value_state.
Qed.

(** The outcome of the coercion attempt, path by path. *)
Lemma coerce_value_spec key value temp_layer (s : State) :
  coerce_value key value temp_layer s =
    (res_bind (coerced value) (fun tv => Ok (<[key := tv]> temp_layer)),
     set_recording true s).
Proof.
  unfold coerce_value, coerced, recording, force_text. monad_unfold. simpl.
  destruct (v_text value) as [t | t | e]; simpl; try done.
  destruct e; simpl; done.
Qed.

(** *** Redaction of a layer *)

Lemma redact_value_spec key value temp_layer (s : State) :
  exists b : bool,
    redact_value key value temp_layer s =
      (res_bind (redacted key value) (fun tv => Ok (<[key := tv]> temp_layer)),
       set_recording b s).
Proof.
  unfold redact_value, redacted, isinstance_HttpRequest, isinstance_list,
    isinstance_tuple.
  destruct (v_class value) as [ | | | class_name [m | ] | ]; simpl;
    rewrite ?andb_true_r, ?andb_false_r;
    repeat match goal with
      | |- context [String.eqb ?a ?b] => destruct (String.eqb a b)
      end;
    try (exists true; apply coerce_value_spec);
    exists (recording_enabled s); rewrite set_recording_same; done.
Qed.

Lemma redact_items_state items temp_layer (s : State) :
  exists b : bool, snd (redact_items items temp_layer s) = set_recording b s.
Proof.
  revert temp_layer s. induction items as [ | [key value] rest IH];
    intros temp_layer s; simpl.
  - exists (recording_enabled s). by rewrite set_recording_same.
  - unfold bind. destruct (redact_value_spec key value temp_layer s) as [b ->].
    destruct (redacted key value) as [tv | e]; simpl.
    + destruct (IH (<[key := tv]> temp_layer) (set_recording b s)) as [b' ->].
      by exists b'.
    + by exists b.
Qed.

(** Keys that are not among the items are left as they were. *)
Lemma redact_items_other items :
  forall (temp_layer temp_layer' : gmap string TempValue) (s s' : State) k,
    redact_items items temp_layer s = (Ok temp_layer', s') ->
    k ∉ items.*1 ->
    temp_layer' !! k = temp_layer !! k.
Proof.
  induction items as [ | [key value] rest IH];
    intros temp_layer temp_layer' s s' k Hrun Hk; simpl in *.
  - monad_unfold. by simplify_eq.
  - unfold bind in Hrun.
    destruct (redact_value_spec key value temp_layer s) as [b Hv].
    rewrite Hv in Hrun. destruct (redacted key value) as [tv | e]; simpl in Hrun;
      [ | done].
    apply not_elem_of_cons in Hk as [Hne Hk].
    rewrite (IH _ _ _ _ _ Hrun Hk). by rewrite lookup_insert_ne.
Qed.

(** Every item of a layer with distinct keys ends in [temp_layer] as
    [redacted] says. *)
Lemma redact_items_lookup items :
  forall (temp_layer temp_layer' : gmap string TempValue) (s s' : State) k v,
    NoDup items.*1 ->
    (k, v) ∈ items ->
    redact_items items temp_layer s = (Ok temp_layer', s') ->
    exists tv, redacted k v = Ok tv /\ temp_layer' !! k = Some tv.
Proof.
  induction items as [ | [key value] rest IH];
    intros temp_layer temp_layer' s s' k v Hnd Hin Hrun; simpl in *.
  - by apply elem_of_nil in Hin.
  - unfold bind in Hrun.
    destruct (redact_value_spec key value temp_layer s) as [b Hv].
    rewrite Hv in Hrun.
    destruct (redacted key value) as [tv | e] eqn:Hred; simpl in Hrun; [ | done].
    apply NoDup_cons in Hnd as [Hfresh Hnd].
    apply elem_of_cons in Hin as [Heq | Hin].
    + simplify_eq. exists tv. split; [done | ].
      rewrite (redact_items_other _ _ _ _ _ _ Hrun Hfresh).
      apply lookup_insert_eq.
    + eapply IH; eauto.
Qed.


(** *** Pretty-printing *)





(** Redaction of the mapping of a layer. *)
Lemma redact_layer_lookup (d : gmap string Value) temp_layer (s s' : State) k v :
  d !! k = Some v ->
  redact_items (map_to_list d) ∅ s = (Ok temp_layer, s') ->
  exists tv, redacted k v = Ok tv /\ temp_layer !! k = Some tv.
Proof.
  intros Hk Hrun.
  eapply redact_items_lookup; [ | | exact Hrun].
  - apply NoDup_fst_map_to_list.
  - by apply elem_of_map_to_list.
Qed.



(** *** The cache of formatted layers *)

(** The three ways the redaction block ends: the text is cached; the
    pretty-printer raised [UnicodeEncodeError] and nothing is cached; an
    exception propagates. *)
Lemma redact_and_cache_cases (k : CtxKey) (d : gmap string Value) (s : State) :
  exists b : bool,
    let s1 := set_recording b (set_redaction_runs (redaction_runs s ++ [k])%list s) in
    (exists text,
        redact_and_cache repr_str layout k d s =
          (Ok tt, set_seen_contexts (<[k := text]> (seen_contexts s)) s1)) \/
    redact_and_cache repr_str layout k d s = (Ok tt, s1) \/
    (exists e, redact_and_cache repr_str layout k d s = (Raise e, s1)).
Proof.
  unfold redact_and_cache. monad_unfold. simpl.
  set (s0 := set_redaction_runs _ s).
  destruct (redact_items_state (map_to_list d) ∅ s0) as [b Hst].
  exists b. simpl.
  destruct (redact_items (map_to_list d) ∅ s0) as [[temp_layer | e] s1];
    simpl in Hst; subst s1.
  - destruct (pformat repr_str layout temp_layer) as [text | e]; simpl.
    + left. by exists text.
    + destruct e; simpl; try (right; right; by eexists).
      right; by left.
  - right; right. by exists e.
Qed.

(** A layer whose key is cached: the cached text is appended and nothing
    else happens. *)
Lemma store_layer_hit (context_layer : Layer) (d : gmap string Value)
    context_list (s : State) text :
  layer_items context_layer = Some d ->
  seen_contexts s !! context_layer_id (layer_id context_layer) d = Some text ->
  store_layer repr_str layout context_layer context_list s =
    (Ok (context_list ++ [text])%list, s).
Proof.
  intros Hd Hseen. unfold store_layer. rewrite Hd. monad_unfold. simpl.
  rewrite Hseen. simpl. by rewrite Hseen.
Qed.

(** A layer whose key is not cached. *)
Lemma store_layer_miss (context_layer : Layer) (d : gmap string Value)
    context_list (s : State) :
  layer_items context_layer = Some d ->
  let k := context_layer_id (layer_id context_layer) d in
  seen_contexts s !! k = None ->
  exists b : bool,
    let s1 := set_recording b (set_redaction_runs (redaction_runs s ++ [k])%list s) in
    (exists text,
        store_layer repr_str layout context_layer context_list s =
          (Ok (context_list ++ [text])%list,
           set_seen_contexts (<[k := text]> (seen_contexts s)) s1)) \/
    (exists e, store_layer repr_str layout context_layer context_list s = (Raise e, s1)).
Proof.
  intros Hd k Hseen. unfold store_layer. rewrite Hd. fold k.
  destruct (redact_and_cache_cases k d s) as [b Hcases]. exists b.
  monad_unfold. simpl in *. rewrite Hseen.
  destruct Hcases as [[text ->] | [-> | [e ->]]]; simpl.
  - left. exists text. by rewrite lookup_insert_eq.
  - right. exists KeyError. by rewrite Hseen.
  - right. by exists e.
Qed.

Lemma store_layer_not_mapping (context_layer : Layer) context_list (s : State) :
  layer_items context_layer = None ->
  store_layer repr_str layout context_layer context_list s = (Ok context_list, s).
Proof. intros Hd. unfold store_layer. by rewrite Hd. Qed.

Lemma same_records_refl s : same_records s s.
Proof. by repeat split. Qed.

Lemma same_records_trans s1 s2 s3 :
  same_records s1 s2 -> same_records s2 s3 -> same_records s1 s3.
Proof.
  intros (? & ? & ? & ?) (? & ? & ? & ?). repeat split; congruence.
Qed.

Lemma store_layer_same_records context_layer context_list (s : State) :
  same_records s (snd (store_layer repr_str layout context_layer context_list s)).
Proof.
  destruct (layer_items context_layer) as [d | ] eqn:Hd.
  - destruct (seen_contexts s !! context_layer_id (layer_id context_layer) d)
      as [text | ] eqn:Hseen.
    + rewrite (store_layer_hit _ _ _ _ _ Hd Hseen). apply same_records_refl.
    + destruct (store_layer_miss _ _ context_list _ Hd Hseen)
        as [b [[text ->] | [e ->]]]; by repeat split.
  - rewrite store_layer_not_mapping by done. apply same_records_refl.
Qed.

Lemma store_layers_same_records layers :
  forall context_list (s : State),
    same_records s (snd (store_layers repr_str layout layers context_list s)).
Proof.
  induction layers as [ | context_layer rest IH]; intros context_list s; simpl.
  - apply same_records_refl.
  - unfold bind.
    pose proof (store_layer_same_records context_layer context_list s) as H1.
    destruct (store_layer repr_str layout context_layer context_list s)
      as [[context_list' | e] s1]; simpl in *; [ | done].
    eapply same_records_trans; [exact H1 | apply IH].
Qed.

(** *** The handler *)

Lemma handler_skip (ev : Event) (s : State) :
  is_toolbar_template (t_name (heap s !!! ev_template ev)) = true ->
  _store_template_info repr_str layout ev s = (Ok tt, s).
Proof.
  intros Hskip. unfold _store_template_info. monad_unfold. simpl.
  by rewrite Hskip.
Qed.

Lemma handler_capture (ev : Event) (s : State) :
  is_toolbar_template (t_name (heap s !!! ev_template ev)) = false ->
  _store_template_info repr_str layout ev s =
    match store_layers repr_str layout (c_dicts (ev_context ev)) [] s with
    | (Ok context_list, s1) =>
        (Ok tt,
         set_templates
           (templates s1 ++
              [mkRecord (ev_template ev) context_list
                        (c_context_processors (ev_context ev))])%list s1)
    | (Raise e, s1) => (Raise e, s1)
    end.
Proof.
  intros Hskip. unfold _store_template_info. monad_unfold. simpl.
  rewrite Hskip.
  by destruct (store_layers _ _ _ _ _) as [[context_list | e] s1].
Qed.

(** The handler does not write to the template objects. *)
Lemma handler_heap (ev : Event) (s : State) :
  heap (snd (_store_template_info repr_str layout ev s)) = heap s.
Proof.
  destruct (is_toolbar_template (t_name (heap s !!! ev_template ev))) eqn:Hskip.
  - by rewrite handler_skip.
  - rewrite handler_capture by done.
    pose proof (store_layers_same_records (c_dicts (ev_context ev)) [] s)
      as (Hheap & _).
    by destruct (store_layers _ _ _ _ _) as [[context_list | e] s1].
Qed.

(** C5: on a render event whose template has a name that is a string
    starting with ['debug_toolbar/'], the handler returns at once: no
    record is appended, and nothing else of the state changes either. *)
Theorem toolbar_template_skipped :
  forall (ev : Event) (s : State) (name : string),
    t_name (heap s !!! ev_template ev) = NameStr name ->
    String.prefix "debug_toolbar/" name = true ->
    _store_template_info repr_str layout ev s = (Ok tt, s).
Proof.
  intros ev s name Hname Hprefix. apply handler_skip.
  rewrite Hname. exact Hprefix.
Qed.

(** C10, as amended: on a render event whose template has a name that is
    not a string, the skip does not apply whatever else the template is:
    when the sanitization of the context returns, the handler appends the
    record of the event and returns. *)
Theorem non_string_name_captured :
  forall (ev : Event) (s s1 : State) (context_list : list string),
    (forall name, t_name (heap s !!! ev_template ev) <> NameStr name) ->
    store_layers repr_str layout (c_dicts (ev_context ev)) [] s
      = (Ok context_list, s1) ->
    exists s',
      _store_template_info repr_str layout ev s = (Ok tt, s') /\
      templates s' =
        (templates s ++
           [mkRecord (ev_template ev) context_list
                     (c_context_processors (ev_context ev))])%list.
Proof.
  intros ev s s1 context_list Hname Hlayers.
  assert (is_toolbar_template (t_name (heap s !!! ev_template ev)) = false)
    as Hskip.
  { destruct (t_name (heap s !!! ev_template ev)) as [name | | ] eqn:Hn;
      [ | done | done].
    by destruct (Hname name). }
  rewrite (handler_capture _ _ Hskip), Hlayers.
  eexists. split; [done | ]. simpl.
  pose proof (store_layers_same_records (c_dicts (ev_context ev)) [] s)
    as (_ & Htpl & _).
  rewrite Hlayers in Htpl. simpl in Htpl. by rewrite Htpl.
Qed.

(** No record of a panel refers to a template of the toolbar itself. *)
Lemma handler_records (ev : Event) (s : State) :
  templates (snd (_store_template_info repr_str layout ev s)) = templates s \/
  exists context_list,
    is_toolbar_template (t_name (heap s !!! ev_template ev)) = false /\
    templates (snd (_store_template_info repr_str layout ev s)) =
      (templates s ++
         [mkRecord (ev_template ev) context_list
                   (c_context_processors (ev_context ev))])%list.
Proof.
  destruct (is_toolbar_template (t_name (heap s !!! ev_template ev))) eqn:Hskip.
  - left. by rewrite handler_skip.
  - rewrite handler_capture by done.
    pose proof (store_layers_same_records (c_dicts (ev_context ev)) [] s)
      as (_ & Htpl & _).
    destruct (store_layers _ _ _ _ _) as [[context_list | e] s1]; simpl in *.
    + right. exists context_list. by rewrite Htpl.
    + by left.
Qed.

Lemma toolbar_templates_never_captured (evs : list Event) :
  forall s : State,
    (forall r, r ∈ templates s ->
               is_toolbar_template (t_name (heap s !!! rr_template r)) = false) ->
    forall r, r ∈ templates (run_events repr_str layout evs s) ->
      is_toolbar_template
        (t_name (heap (run_events repr_str layout evs s) !!! rr_template r)) = false.
Proof.
  induction evs as [ | ev evs IH]; intros s Hinv; simpl; [done | ].
  apply IH. intros r Hr. rewrite handler_heap.
  destruct (handler_records ev s) as [Hsame | (context_list & Hskip & Happ)].
  - rewrite Hsame in Hr. by apply Hinv.
  - rewrite Happ in Hr. apply elem_of_app in Hr as [Hr | Hr]; [by apply Hinv | ].
    apply list_elem_of_singleton in Hr. by subst r.
Qed.

(** *** Recording stays on

    The handler switches recording off only inside the coercion attempt,
    which switches it on again: a handler that starts with recording on
    ends with recording on, whether it returns or raises. *)

Lemma redact_value_recording key value temp_layer (s : State) :
  recording_enabled s = true ->
  recording_enabled (snd (redact_value key value temp_layer s)) = true.
Proof.
  intros Hon. unfold redact_value.
  destruct (isinstance_HttpRequest value); [done | ].
  destruct (String.eqb key "sql_queries" && isinstance_list value); [done | ].
  destruct (String.eqb key "LANGUAGES" && isinstance_tuple value); [done | ].
  destruct (v_class value) as [ | | | class_name [m | ] | ];
    rewrite ?coerce_value_state; done.
Qed.

Lemma redact_items_recording items :
  forall temp_layer (s : State),
    recording_enabled s = true ->
    recording_enabled (snd (redact_items items temp_layer s)) = true.
Proof.
  induction items as [ | [key value] rest IH]; intros temp_layer s Hon; simpl;
    [done | ].
  unfold bind.
  pose proof (redact_value_recording key value temp_layer s Hon) as H1.
  destruct (redact_value key value temp_layer s) as [[temp_layer' | e] s1];
    simpl in *; [by apply IH | done].
Qed.

Lemma store_layer_recording context_layer context_list (s : State) :
  recording_enabled s = true ->
  recording_enabled
    (snd (store_layer repr_str layout context_layer context_list s)) = true.
Proof.
  intros Hon. unfold store_layer.
  destruct (layer_items context_layer) as [d | ]; [ | done].
  set (k := context_layer_id (layer_id context_layer) d).
  unfold redact_and_cache. monad_unfold. simpl.
  destruct (seen_contexts s !! k) as [text | ] eqn:Hseen; simpl.
  - by rewrite Hseen.
  - set (s0 := set_redaction_runs _ s).
    pose proof (redact_items_recording (map_to_list d) ∅ s0 Hon) as H1.
    destruct (redact_items (map_to_list d) ∅ s0) as [[temp_layer | e] s1];
      simpl in *; [ | done].
    destruct (pformat repr_str layout temp_layer) as [text | e]; simpl.
    + by rewrite lookup_insert_eq.
    + destruct e; simpl; try done.
      by destruct (seen_contexts s1 !! k).
Qed.

Lemma store_layers_recording layers :
  forall context_list (s : State),
    recording_enabled s = true ->
    recording_enabled
      (snd (store_layers repr_str layout layers context_list s)) = true.
Proof.
  induction layers as [ | context_layer rest IH]; intros context_list s Hon;
    simpl; [done | ].
  unfold bind.
  pose proof (store_layer_recording context_layer context_list s Hon) as H1.
  destruct (store_layer repr_str layout context_layer context_list s)
    as [[context_list' | e] s1]; simpl in *; [by apply IH | done].
Qed.

Lemma handler_recording (ev : Event) (s : State) :
  recording_enabled s = true ->
  recording_enabled (snd (_store_template_info repr_str layout ev s)) = true.
Proof.
  intros Hon.
  destruct (is_toolbar_template (t_name (heap s !!! ev_template ev))) eqn:Hskip.
  - by rewrite handler_skip.
  - rewrite handler_capture by done.
    pose proof (store_layers_recording (c_dicts (ev_context ev)) [] s Hon) as H1.
    by destruct (store_layers _ _ _ _ _) as [[context_list | e] s1].
Qed.

(** *** The report *)

Lemma set_heap_same (s : State) : set_heap (heap s) s = s.
Proof. by destruct s. Qed.

Lemma heap_set_heap (h : gmap loc Template) (s : State) :
  heap (set_heap h s) = h.
Proof. done. Qed.

Lemma template_infos_spec records :
  forall (template_context : list Info) (s : State),
    template_infos records template_context s =
      (Ok (template_context ++ map (info_of (show_template_context s)) records)%list,
       set_heap (label_templates records (heap s)) s).
Proof.
  induction records as [ | r rest IH]; intros template_context s; simpl.
  - unfold ret. by rewrite app_nil_r, set_heap_same.
  - unfold template_info. monad_unfold. simpl.
    destruct (show_template_context s) eqn:Hshow; simpl;
      rewrite IH; simpl; rewrite Hshow, <- app_assoc; done.
Qed.

(** The loop changes no attribute of a template but [origin_name]. *)
Lemma label_templates_attrs records :
  forall (h : gmap loc Template) (l : loc),
    t_name (label_templates records h !!! l) = t_name (h !!! l) /\
    t_origin (label_templates records h !!! l) = t_origin (h !!! l) /\
    t_engine (label_templates records h !!! l) = t_engine (h !!! l) /\
    t_backend (label_templates records h !!! l) = t_backend (h !!! l).
Proof.
  induction records as [ | r rest IH]; intros h l; simpl; [done | ].
  destruct (IH (<[rr_template r :=
                   set_origin_name (origin_display (h !!! rr_template r))
                                   (h !!! rr_template r)]> h) l)
    as (-> & -> & -> & ->).
  destruct (decide (rr_template r = l)) as [<- | Hne].
  - by rewrite lookup_total_insert_eq.
  - by rewrite lookup_total_insert_ne.
Qed.

Lemma origin_display_label records (h : gmap loc Template) (l : loc) :
  origin_display (label_templates records h !!! l) = origin_display (h !!! l).
Proof.
  unfold origin_display.
  by destruct (label_templates_attrs records h l) as (_ & -> & _).
Qed.

(** A template that carries its label keeps it. *)
Lemma label_templates_keeps records :
  forall (h : gmap loc Template) (l : loc),
    t_origin_name (h !!! l) = Some (origin_display (h !!! l)) ->
    t_origin_name (label_templates records h !!! l)
      = Some (origin_display (h !!! l)).
Proof.
  induction records as [ | r rest IH]; intros h l Hl; simpl; [done | ].
  set (h1 := <[rr_template r := _]> h).
  assert (origin_display (h1 !!! l) = origin_display (h !!! l)) as Hsame.
  { unfold h1. destruct (decide (rr_template r = l)) as [<- | Hne].
    - by rewrite lookup_total_insert_eq.
    - by rewrite lookup_total_insert_ne. }
  rewrite <- Hsame. apply IH. rewrite Hsame.
  unfold h1. destruct (decide (rr_template r = l)) as [<- | Hne].
  - by rewrite lookup_total_insert_eq.
  - by rewrite lookup_total_insert_ne.
Qed.

(** Every template of a record carries its label after the loop. *)
Lemma label_templates_labelled records :
  forall (h : gmap loc Template) (r : RenderRecord),
    r ∈ records ->
    t_origin_name (label_templates records h !!! rr_template r)
      = Some (origin_display (h !!! rr_template r)).
Proof.
  induction records as [ | r0 rest IH]; intros h r Hin; simpl.
  - by apply elem_of_nil in Hin.
  - set (h1 := <[rr_template r0 := _]> h).
    assert (origin_display (h1 !!! rr_template r)
            = origin_display (h !!! rr_template r)) as Hsame.
    { unfold h1. destruct (decide (rr_template r0 = rr_template r)) as [Heq | Hne].
      - rewrite Heq. by rewrite lookup_total_insert_eq.
      - by rewrite lookup_total_insert_ne. }
    apply elem_of_cons in Hin as [-> | Hin].
    + rewrite <- Hsame. apply label_templates_keeps.
      unfold h1. by rewrite lookup_total_insert_eq.
    + rewrite <- Hsame. by apply IH.
Qed.

(** [generate_stats], in one equation. *)
Lemma generate_stats_spec (s : State) :
  let s1 := set_heap (label_templates (templates s) (heap s)) s in
  generate_stats normpath s =
    match templates s with
    | [] => (Ok tt, set_stats (Some (mkStats [] [] None)) s1)
    | first :: _ =>
        match engine_dirs (heap s !!! rr_template first) with
        | Some template_dirs =>
            (Ok tt,
             set_stats
               (Some (mkStats (map (info_of (show_template_context s)) (templates s))
                              (map normpath template_dirs)
                              (rr_context_processors first)))
               s1)
        | None => (Raise AttributeError, s1)
        end
    end.
Proof.
  unfold generate_stats. monad_unfold. simpl.
  rewrite template_infos_spec. simpl.
  destruct (templates s) as [ | first rest] eqn:Htpl; [done | ].
  rewrite <- Htpl.
  destruct (label_templates_attrs (templates s) (heap s) (rr_template first))
    as (_ & _ & Hengine & Hbackend).
  unfold engine_backend_dirs, engine_dirs, record_stats. monad_unfold.
  rewrite !heap_set_heap, Hengine, Hbackend.
  destruct (t_engine (heap s !!! rr_template first)) as [engine | ]; [done | ].
  by destruct (t_backend (heap s !!! rr_template first)) as [backend | ].
Qed.

(** C6: when no template was captured, [generate_stats] hands
    [record_stats] a report whose [templates] and [template_dirs] are
    empty and whose [context_processors] is [None], and changes nothing
    else. *)
Theorem no_templates_empty_report :
  forall s : State,
    templates s = [] ->
    generate_stats normpath s =
      (Ok tt, set_stats (Some (mkStats [] [] None)) s).
Proof.
  intros s Hnone. rewrite generate_stats_spec, Hnone. simpl.
  by rewrite set_heap_same.
Qed.

Lemma origin_display_named (t : Template) (name : string) :
  t_origin t = Origin (Some name) -> name <> "" -> origin_display t = name.
Proof.
  intros Horigin Hname. unfold origin_display. rewrite Horigin.
  by apply String.eqb_neq in Hname as ->.
Qed.

Lemma origin_display_unnamed (t : Template) :
  (forall name, t_origin t = Origin (Some name) -> name = "") ->
  origin_display t = no_origin.
Proof.
  intros Hnone. unfold origin_display.
  destruct (t_origin t) as [ | | [name | ]]; try done.
  by rewrite (Hnone name eq_refl).
Qed.

(** C8: in the report [generate_stats] records, the entries follow the
    captured records in order, and the entry of a record refers to the
    record's template, whose [origin_name] is the name of its origin
    when the template has an origin and that origin a non-empty name,
    and ['No origin'] otherwise; the entry has a ['context'] field, the
    record's text blocks joined with newlines, when
    [SHOW_TEMPLATE_CONTEXT] is set, and no such field when it is not. *)
Theorem report_entries :
  forall (s s' : State),
    generate_stats normpath s = (Ok tt, s') ->
    exists report,
      stats s' = Some report /\
      Forall2
        (fun r info =>
           info_template info = rr_template r /\
           (forall name,
               t_origin (heap s !!! rr_template r) = Origin (Some name) ->
               name <> "" ->
               t_origin_name (heap s' !!! info_template info) = Some name) /\
           ((forall name,
                t_origin (heap s !!! rr_template r) = Origin (Some name) ->
                name = "") ->
            t_origin_name (heap s' !!! info_template info) = Some "No origin") /\
           info_context info =
             (if show_template_context s
              then Some (join newline (rr_context r))
              else None))
        (templates s) (st_templates report).
Proof.
  intros s s' Hrun. rewrite generate_stats_spec in Hrun. simpl in Hrun.
  assert (heap s' = label_templates (templates s) (heap s) /\
          exists template_dirs cp,
            stats s' =
              Some (mkStats (map (info_of (show_template_context s)) (templates s))
                            template_dirs cp)) as (Hheap & ds & cp & Hstats).
  { destruct (templates s) as [ | first rest] eqn:Htpl.
    - simplify_eq. split; [done | ]. by exists [], None.
    - destruct (engine_dirs (heap s !!! rr_template first)) as [ds | ];
        [ | done].
      simplify_eq. split; [done | ]. by eexists _, _. }
  eexists. split; [exact Hstats | ]. simpl.
  apply Forall2_fmap_r, Forall_Forall2_diag, Forall_forall.
  intros r Hr. simpl. rewrite Hheap.
  rewrite (label_templates_labelled _ (heap s) r Hr).
  repeat split.
  - intros name Horigin Hname. by rewrite (origin_display_named _ _ Horigin Hname).
  - intros Hnone. by rewrite (origin_display_unnamed _ Hnone).
Qed.

(** C9: [generate_stats] writes to the template object of every captured
    record: after it, whether it returned or raised, the object in the
    store has its [origin_name] set to the value line 179 selects; the
    entries of the report hold the references of the records, so they
    denote these same objects; and when the attribute did not already
    have that value the store after the call differs from the store
    before it. *)
Theorem generate_stats_mutates_templates :
  forall (s : State) (r : RenderRecord),
    r ∈ templates s ->
    let s' := snd (generate_stats normpath s) in
    t_origin_name (heap s' !!! rr_template r)
      = Some (origin_display (heap s !!! rr_template r)) /\
    (fst (generate_stats normpath s) = Ok tt ->
     exists report,
       stats s' = Some report /\
       map info_template (st_templates report) = map rr_template (templates s)) /\
    (t_origin_name (heap s !!! rr_template r)
       <> Some (origin_display (heap s !!! rr_template r)) ->
     heap s' <> heap s).
Proof.
  intros s r Hr s'.
  assert (heap s' = label_templates (templates s) (heap s)) as Hheap.
  { unfold s'. rewrite generate_stats_spec. simpl.
    destruct (templates s) as [ | first rest]; [done | ].
    by destruct (engine_dirs (heap s !!! rr_template first)). }
  assert (t_origin_name (heap s' !!! rr_template r)
          = Some (origin_display (heap s !!! rr_template r))) as Hlabel.
  { rewrite Hheap. by apply label_templates_labelled. }
  split; [exact Hlabel | split].
  - unfold s'. rewrite generate_stats_spec. simpl.
    destruct (templates s) as [ | first rest] eqn:Htpl.
    + intros _. by eexists.
    + destruct (engine_dirs (heap s !!! rr_template first)); [ | done].
      intros _. eexists. split; [done | ]. simpl.
      f_equal. rewrite <- list_fmap_compose. by apply list_fmap_ext.
  - intros Hbefore Hsame. apply Hbefore. by rewrite Hsame in Hlabel.
Qed.

(** When the pretty-printer raises [UnicodeEncodeError] for a layer
    that is not cached, line 135 passes, nothing is cached, and the
    lookup of line 138 raises [KeyError]. *)
Lemma store_layer_encode_error (context_layer : Layer) (d : gmap string Value)
    context_list (s s1 : State) temp_layer :
  layer_items context_layer = Some d ->
  let k := context_layer_id (layer_id context_layer) d in
  seen_contexts s !! k = None ->
  redact_items (map_to_list d) ∅
    (set_redaction_runs (redaction_runs s ++ [k])%list s) = (Ok temp_layer, s1) ->
  pformat repr_str layout temp_layer = Raise UnicodeEncodeError ->
  store_layer repr_str layout context_layer context_list s = (Raise KeyError, s1).
Proof.
  intros Hd k Hseen Hred Hfmt. unfold store_layer. rewrite Hd. fold k.
  unfold redact_and_cache. monad_unfold. simpl. rewrite Hseen. simpl.
  rewrite Hred. simpl. rewrite Hfmt. simpl.
  destruct (redact_items_state (map_to_list d) ∅
              (set_redaction_runs (redaction_runs s ++ [k])%list s)) as [b Hst].
  rewrite Hred in Hst. simpl in Hst. subst s1. simpl. by rewrite Hseen.
Qed.

(** *** Memoization *)

(** A layer that was processed without an exception has its text in the
    cache, and that text is the block that was appended. *)
Lemma store_layer_ok_cached (context_layer : Layer) (d : gmap string Value)
    context_list context_list' (s s' : State) :
  layer_items context_layer = Some d ->
  store_layer repr_str layout context_layer context_list s = (Ok context_list', s') ->
  exists text,
    context_list' = (context_list ++ [text])%list /\
    seen_contexts s' !! context_layer_id (layer_id context_layer) d = Some text.
Proof.
  intros Hd Hrun.
  destruct (seen_contexts s !! context_layer_id (layer_id context_layer) d)
    as [text | ] eqn:Hseen.
  - rewrite (store_layer_hit _ _ _ _ _ Hd Hseen) in Hrun. simplify_eq.
    by exists text.
  - destruct (store_layer_miss _ _ context_list _ Hd Hseen)
      as [b [[text Hok] | [e Hraise]]]; rewrite Hrun in *; simplify_eq.
    exists text. split; [done | ]. simpl. apply lookup_insert_eq.
Qed.

Lemma runs_for_other (k k' : CtxKey) (l : list CtxKey) :
  k' <> k ->
  List.length (filter (fun x => x = k) (l ++ [k'])%list) =
  List.length (filter (fun x => x = k) l).
Proof.
  intros Hne. rewrite filter_app, length_app.
  rewrite filter_cons_False by done. rewrite filter_nil. simpl. lia.
Qed.

Lemma cached_store_layer k text n context_layer context_list (s : State) :
  cached k text n s ->
  cached k text n (snd (store_layer repr_str layout context_layer context_list s)).
Proof.
  intros [Hseen Hruns].
  destruct (layer_items context_layer) as [d | ] eqn:Hd.
  - destruct (seen_contexts s !! context_layer_id (layer_id context_layer) d)
      as [text' | ] eqn:Hseen'.
    + by rewrite (store_layer_hit _ _ _ _ _ Hd Hseen').
    + assert (context_layer_id (layer_id context_layer) d <> k) as Hne.
      { intros Heq. rewrite Heq in Hseen'. congruence. }
      destruct (store_layer_miss _ _ context_list _ Hd Hseen')
        as [b [[text' ->] | [e ->]]]; unfold cached, runs_for in *; simpl.
      * rewrite lookup_insert_ne by done. by rewrite runs_for_other.
      * by rewrite runs_for_other.
  - by rewrite store_layer_not_mapping.
Qed.

Lemma cached_store_layers k text n layers :
  forall context_list (s : State),
    cached k text n s ->
    cached k text n (snd (store_layers repr_str layout layers context_list s)).
Proof.
  induction layers as [ | context_layer rest IH]; intros context_list s Hc;
    simpl; [done | ].
  unfold bind.
  pose proof (cached_store_layer _ _ _ context_layer context_list _ Hc) as H1.
  destruct (store_layer repr_str layout context_layer context_list s)
    as [[context_list' | e] s1]; simpl in *; [ | done].
  by apply IH.
Qed.

Lemma cached_step k text n (s s' : State) :
  panel_step repr_str layout normpath s s' ->
  cached k text n s -> cached k text n s'.
Proof.
  intros Hstep Hc. destruct Hstep as [context_layer context_list s | ev s | s].
  - by apply cached_store_layer.
  - destruct (is_toolbar_template (t_name (heap s !!! ev_template ev))) eqn:Hskip.
    + by rewrite handler_skip.
    + rewrite handler_capture by done.
      pose proof (cached_store_layers _ _ _ (c_dicts (ev_context ev)) [] _ Hc)
        as H1.
      by destruct (store_layers _ _ _ _ _) as [[context_list | e] s1].
  - rewrite generate_stats_spec. simpl.
    destruct (templates s) as [ | first rest]; [done | ].
    by destruct (engine_dirs (heap s !!! rr_template first)).
Qed.

Lemma cached_steps k text n (s s' : State) :
  rtc (panel_step repr_str layout normpath) s s' ->
  cached k text n s -> cached k text n s'.
Proof.
  induction 1 as [ | s s1 s' Hstep _ IH]; [done | ].
  intros Hc. apply IH. by eapply cached_step.
Qed.

(** C3, as amended: once a mapping-like layer has been processed without
    an exception, its text is in the cache under its composite key, and
    whatever the panel does afterwards, a mapping-like layer with an
    equal composite key gets exactly that text appended, with no change
    of the state: the redaction block is not entered for that key again. *)
Theorem cached_layer_reused :
  forall (layer1 layer2 : Layer) (d1 d2 : gmap string Value)
         (context_list1 context_list1' context_list2 : list string)
         (s0 s1 s2 : State),
    layer_items layer1 = Some d1 ->
    layer_items layer2 = Some d2 ->
    context_layer_id (layer_id layer1) d1 = context_layer_id (layer_id layer2) d2 ->
    store_layer repr_str layout layer1 context_list1 s0 = (Ok context_list1', s1) ->
    rtc (panel_step repr_str layout normpath) s1 s2 ->
    exists text,
      context_list1' = (context_list1 ++ [text])%list /\
      seen_contexts s1 !! context_layer_id (layer_id layer1) d1 = Some text /\
      store_layer repr_str layout layer2 context_list2 s2
        = (Ok (context_list2 ++ [text])%list, s2) /\
      runs_for (context_layer_id (layer_id layer1) d1) s2
        = runs_for (context_layer_id (layer_id layer1) d1) s1.
Proof.
  intros layer1 layer2 d1 d2 cl1 cl1' cl2 s0 s1 s2 Hd1 Hd2 Hkey Hfirst Hlater.
  destruct (store_layer_ok_cached _ _ _ _ _ _ Hd1 Hfirst) as (text & -> & Hseen).
  exists text. split; [done | split; [done | ]].
  destruct (cached_steps _ text _ _ _ Hlater (conj Hseen eq_refl))
    as [Hseen2 Hruns2].
  split; [ | done].
  apply store_layer_hit with (d := d2); [done | ].
  by rewrite <- Hkey.
Qed.

End Properties.

(** ** The theorems at concrete inputs *)

(** The exit paths of the coercion attempt, one value for each. *)
Example coerce_kept :
  coerce_value "x" (Sample.number "1") ∅ Sample.panel
    = (Ok (<["x" := Kept (Sample.number "1")]> ∅), Sample.panel).
Proof. vm_compute. reflexivity. Qed.

Example coerce_triggers_query :
  coerce_value "user" Sample.lazy_user ∅ Sample.panel
    = (Ok (<["user" := Placeholder "<<triggers database query>>"]> ∅), Sample.panel).
Proof. vm_compute. reflexivity. Qed.

Example coerce_encode_error :
  coerce_value "x" Sample.unencodable ∅ Sample.panel
    = (Ok (<["x" := Placeholder "<<unicode encode error>>"]> ∅), Sample.panel).
Proof. vm_compute. reflexivity. Qed.

Example coerce_unhandled :
  coerce_value "x" Sample.failing ∅ Sample.panel
    = (Ok (<["x" := Placeholder "<<unhandled exception>>"]> ∅), Sample.panel).
Proof. vm_compute. reflexivity. Qed.

Example coerce_propagates :
  coerce_value "x" Sample.interrupted ∅ Sample.panel
    = (Raise (NonException "KeyboardInterrupt"), Sample.panel).
Proof. vm_compute. reflexivity. Qed.

Example skip_test :
  is_toolbar_template (NameStr "debug_toolbar/panels/templates.html") = true /\
  is_toolbar_template (NameStr "a.html") = false /\
  is_toolbar_template (NameStr "my/debug_toolbar/x.html") = false /\
  is_toolbar_template NameNone = false.
Proof. repeat split. Qed.




Lemma toolbar_template_skipped_witness :
  t_name (heap Sample.panel !!! ev_template Sample.render_toolbar)
    = NameStr "debug_toolbar/base.html" /\
  String.prefix "debug_toolbar/" "debug_toolbar/base.html" = true /\
  _store_template_info Sample.repr_str Sample.layout Sample.render_toolbar Sample.panel
    = (Ok tt, Sample.panel).
Proof.
  split; [vm_compute; reflexivity | ].
  split; [reflexivity | ].
  apply (toolbar_template_skipped Sample.repr_str Sample.layout
           Sample.render_toolbar Sample.panel "debug_toolbar/base.html");
    vm_compute; reflexivity.
Defined.

Lemma non_string_name_captured_witness :
  let run :=
    store_layers Sample.repr_str Sample.layout
      (c_dicts (ev_context Sample.render_unnamed)) [] Sample.panel in
  t_name (heap Sample.panel !!! ev_template Sample.render_unnamed) = NameNone /\
  run = (Ok ["{'a': 2, 'x': 1}"], snd run) /\
  exists s',
    _store_template_info Sample.repr_str Sample.layout Sample.render_unnamed
      Sample.panel = (Ok tt, s') /\
    templates s' =
      (templates Sample.panel ++ [mkRecord 3 ["{'a': 2, 'x': 1}"] None])%list.
Proof.
  intros run.
  split; [vm_compute; reflexivity | ].
  split; [vm_compute; reflexivity | ].
  apply (non_string_name_captured Sample.repr_str Sample.layout
           Sample.render_unnamed Sample.panel (snd run) ["{'a': 2, 'x': 1}"]).
  - intros name. vm_compute. discriminate.
  - vm_compute. reflexivity.
Defined.

(** C10, as stated, fails when the sanitization raises: the template
    has the name [None], a [__repr__] raises [ValueError] in the
    pretty-printer, the exception leaves the handler and no record is
    appended. *)
Lemma non_string_name_not_captured :
  let run :=
    _store_template_info Sample.repr_str Sample.layout
      Sample.render_unnamed_broken Sample.panel in
  t_name (heap Sample.panel !!! ev_template Sample.render_unnamed_broken)
    = NameNone /\
  fst run = Raise (OtherException "ValueError") /\
  templates (snd run) = templates Sample.panel /\
  templates (snd run) = [].
Proof.
  intros run. repeat split; vm_compute; reflexivity.
Qed.

Lemma no_templates_empty_report_witness :
  templates Sample.panel = [] /\
  generate_stats Sample.normpath Sample.panel
    = (Ok tt, set_stats (Some (mkStats [] [] None)) Sample.panel).
Proof.
  split; [reflexivity | ].
  apply (no_templates_empty_report Sample.normpath Sample.panel).
  reflexivity.
Defined.

Lemma cached_layer_reused_witness :
  let first :=
    store_layer Sample.repr_str Sample.layout Sample.plain_layer [] Sample.panel in
  let s1 := snd first in
  let s2 :=
    snd (_store_template_info Sample.repr_str Sample.layout
           Sample.render_unnamed s1) in
  let k := context_layer_id (layer_id Sample.plain_layer) Sample.plain_dict in
  k = context_layer_id (layer_id Sample.changed_layer) Sample.changed_dict /\
  first = (Ok ["{'a': 2, 'x': 1}"], s1) /\
  exists text,
    ["{'a': 2, 'x': 1}"] = ([] ++ [text])%list /\
    seen_contexts s1 !! k = Some text /\
    store_layer Sample.repr_str Sample.layout Sample.changed_layer ["{}"] s2
      = (Ok (["{}"] ++ [text])%list, s2) /\
    runs_for k s2 = runs_for k s1.
Proof.
  intros first s1 s2 k.
  split; [vm_compute; reflexivity | ].
  split; [vm_compute; reflexivity | ].
  apply (cached_layer_reused Sample.repr_str Sample.layout Sample.normpath
           Sample.plain_layer Sample.changed_layer
           Sample.plain_dict Sample.changed_dict
           [] ["{'a': 2, 'x': 1}"] ["{}"] Sample.panel s1 s2).
  - reflexivity.
  - reflexivity.
  - vm_compute. reflexivity.
  - vm_compute. reflexivity.
  - apply rtc_once. apply step_render.
Defined.

(** C3, as stated, fails when the formatting of the first occurrence
    fails: the same layer is delivered twice, a [__repr__] raises
    [ValueError] in the pretty-printer both times, nothing is cached, and
    the redaction block is entered twice for the one composite key. *)
Lemma failed_layer_formatted_again :
  let k := context_layer_id (layer_id Sample.broken_layer) Sample.broken_dict in
  let first :=
    _store_template_info Sample.repr_str Sample.layout
      Sample.render_broken Sample.panel in
  let second :=
    _store_template_info Sample.repr_str Sample.layout
      Sample.render_broken (snd first) in
  layer_items Sample.broken_layer = Some Sample.broken_dict /\
  fst first = Raise (OtherException "ValueError") /\
  runs_for k (snd first) = 1 /\
  seen_contexts (snd first) !! k = None /\
  fst second = Raise (OtherException "ValueError") /\
  runs_for k (snd second) = 2.
Proof.
  intros k first second. repeat split; vm_compute; reflexivity.
Qed.

(** C1 at the failing input: [a.html] is rendered with one layer
    [{'x': value}] where [repr(value)] raises [UnicodeEncodeError].  The
    redaction keeps the value, the pretty-printer raises, and the handler
    ends with [KeyError] and without a record. *)
Theorem encode_error_raises_KeyError :
  let redaction :=
    redact_items (map_to_list Sample.unprintable_dict) ∅ Sample.panel in
  let run :=
    _store_template_info Sample.repr_str Sample.layout
      Sample.render_unprintable Sample.panel in
  fst redaction = Ok (<["x" := Kept Sample.unprintable]> ∅) /\
  pformat Sample.repr_str Sample.layout (ok_or ∅ (fst redaction))
    = Raise UnicodeEncodeError /\
  fst run = Raise KeyError /\
  templates (snd run) = [].
Proof.
  intros redaction run. repeat split; vm_compute; reflexivity.
Qed.

Lemma report_entries_witness :
  let s := Sample.panel_after_a in
  let s' := snd (generate_stats Sample.normpath s) in
  generate_stats Sample.normpath s = (Ok tt, s') /\
  exists report,
    stats s' = Some report /\
    Forall2
      (fun r info =>
         info_template info = rr_template r /\
         (forall name,
             t_origin (heap s !!! rr_template r) = Origin (Some name) ->
             name <> "" ->
             t_origin_name (heap s' !!! info_template info) = Some name) /\
         ((forall name,
              t_origin (heap s !!! rr_template r) = Origin (Some name) ->
              name = "") ->
          t_origin_name (heap s' !!! info_template info) = Some "No origin") /\
         info_context info =
           (if show_template_context s
            then Some (join newline (rr_context r))
            else None))
      (templates s) (st_templates report).
Proof.
  intros s s'. split; [vm_compute; reflexivity | ].
  apply (report_entries Sample.normpath s s').
  vm_compute. reflexivity.
Defined.

Lemma generate_stats_mutates_templates_witness :
  let s := Sample.panel_after_a in
  let r := mkRecord 1 ["{'a': 2, 'x': 1}"; "{'a': 2, 'x': 1}"] None in
  let s' := snd (generate_stats Sample.normpath s) in
  r ∈ templates s /\
  t_origin_name (heap s !!! rr_template r) = None /\
  t_origin_name (heap s' !!! rr_template r)
    = Some (origin_display (heap s !!! rr_template r)) /\
  (fst (generate_stats Sample.normpath s) = Ok tt ->
   exists report,
     stats s' = Some report /\
     map info_template (st_templates report) = map rr_template (templates s)) /\
  (t_origin_name (heap s !!! rr_template r)
     <> Some (origin_display (heap s !!! rr_template r)) ->
   heap s' <> heap s).
Proof.
  intros s r s'.
  assert (r ∈ templates s) as Hr by (vm_compute; left).
  split; [exact Hr | ].
  split; [vm_compute; reflexivity | ].
  exact (generate_stats_mutates_templates Sample.normpath s r Hr).
Defined.

(** ** Further properties of the module *)

Section Further.

Variable repr_str : string -> string.
Variable layout : list (string * string) -> string.
Variable normpath : string -> string.

(** *** What every step of a panel keeps *)

Lemma extends_refl s : extends s s.
Proof. by repeat split. Qed.

Lemma extends_trans s1 s2 s3 : extends s1 s2 -> extends s2 s3 -> extends s1 s3.
Proof.
  intros (Hn1 & Hp1 & Hr1 & Hc1) (Hn2 & Hp2 & Hr2 & Hc2). repeat split.
  - intros l. by rewrite Hn2.
  - by etrans.
  - auto.
  - by etrans.
Qed.

Lemma seen_contexts_grow_layer context_layer context_list (s : State) :
  seen_contexts s
    ⊆ seen_contexts (snd (store_layer repr_str layout context_layer context_list s)).
Proof.
  destruct (layer_items context_layer) as [d | ] eqn:Hd.
  - destruct (seen_contexts s !! context_layer_id (layer_id context_layer) d)
      as [text | ] eqn:Hseen.
    + by rewrite (store_layer_hit _ _ _ _ _ _ _ Hd Hseen).
    + destruct (store_layer_miss repr_str layout _ _ context_list _ Hd Hseen)
        as [b [[text ->] | [e ->]]]; simpl; [ | done].
      by apply insert_subseteq.
  - by rewrite store_layer_not_mapping.
Qed.

Lemma seen_contexts_grow_layers layers :
  forall context_list (s : State),
    seen_contexts s
      ⊆ seen_contexts (snd (store_layers repr_str layout layers context_list s)).
Proof.
  induction layers as [ | context_layer rest IH]; intros context_list s; simpl;
    [done | ].
  unfold bind.
  pose proof (seen_contexts_grow_layer context_layer context_list s) as H1.
  destruct (store_layer repr_str layout context_layer context_list s)
    as [[context_list' | e] s1]; simpl in *; [ | done].
  etrans; [exact H1 | apply IH].
Qed.

Lemma extends_layer context_layer context_list (s : State) :
  extends s (snd (store_layer repr_str layout context_layer context_list s)).
Proof.
  destruct (store_layer_same_records repr_str layout context_layer context_list s)
    as (Hheap & Htpl & _).
  repeat split.
  - intros l. by rewrite Hheap.
  - by rewrite Htpl.
  - apply store_layer_recording.
  - apply seen_contexts_grow_layer.
Qed.

Lemma extends_handler (ev : Event) (s : State) :
  extends s (snd (_store_template_info repr_str layout ev s)).
Proof.
  repeat split.
  - intros l. by rewrite handler_heap.
  - destruct (handler_records repr_str layout ev s)
      as [-> | (context_list & _ & ->)]; [done | by apply prefix_app_r].
  - apply handler_recording.
  - destruct (is_toolbar_template (t_name (heap s !!! ev_template ev))) eqn:Hskip.
    + by rewrite handler_skip.
    + rewrite handler_capture by done.
      pose proof (seen_contexts_grow_layers (c_dicts (ev_context ev)) [] s) as H1.
      by destruct (store_layers _ _ _ _ _) as [[context_list | e] s1].
Qed.

Lemma extends_stats (s : State) :
  extends s (snd (generate_stats normpath s)).
Proof.
  assert (snd (generate_stats normpath s)
          = set_heap (label_templates (templates s) (heap s)) s \/
          exists report,
            snd (generate_stats normpath s)
            = set_stats (Some report)
                (set_heap (label_templates (templates s) (heap s)) s))
    as [-> | [report ->]].
  { rewrite generate_stats_spec. simpl.
    destruct (templates s) as [ | first rest]; [right; by eexists | ].
    destruct (engine_dirs (heap s !!! rr_template first));
      [right; by eexists | by left]. }
  all: repeat split; try done;
    intros l; simpl; by destruct (label_templates_attrs (templates s) (heap s) l).
Qed.

Lemma extends_step (s s' : State) :
  panel_step repr_str layout normpath s s' -> extends s s'.
Proof.
  intros Hstep. destruct Hstep as [context_layer context_list s | ev s | s].
  - apply extends_layer.
  - apply extends_handler.
  - apply extends_stats.
Qed.

Lemma extends_steps (s s' : State) :
  rtc (panel_step repr_str layout normpath) s s' -> extends s s'.
Proof.
  induction 1 as [ | s s1 s' Hstep _ IH]; [apply extends_refl | ].
  eapply extends_trans; [by apply extends_step | exact IH].
Qed.

(** X1: whatever a panel does (layers processed, render events handled,
    with or without an exception, report generated), recording that was
    on stays on. *)
Theorem recording_stays_on :
  forall s s' : State,
    recording_enabled s = true ->
    rtc (panel_step repr_str layout normpath) s s' ->
    recording_enabled s' = true.
Proof.
  intros s s' Hon Hsteps. by apply (extends_steps _ _ Hsteps).
Qed.

(** X2: the records of a panel are only ever appended to, and the texts
    of the cache are only ever added: what was captured or cached stays
    as it is through every later step. *)
Theorem records_and_cache_grow :
  forall s s' : State,
    rtc (panel_step repr_str layout normpath) s s' ->
    templates s `prefix_of` templates s' /\
    seen_contexts s ⊆ seen_contexts s'.
Proof.
  intros s s' Hsteps. by destruct (extends_steps _ _ Hsteps) as (_ & ? & _ & ?).
Qed.

(** *** Redaction, branch by branch *)

Lemma redact_items_result items :
  forall (temp_layer : gmap string TempValue) (s s' : State),
    fst (redact_items items temp_layer s) = fst (redact_items items temp_layer s').
Proof.
  induction items as [ | [key value] rest IH]; intros temp_layer s s'; simpl;
    [done | ].
  unfold bind.
  destruct (redact_value_spec key value temp_layer s) as [b ->].
  destruct (redact_value_spec key value temp_layer s') as [b' ->].
  destruct (redacted key value) as [tv | e]; simpl; [apply IH | done].
Qed.

(** X3: when a layer holds a tuple under the key ['LANGUAGES'], the
    redacted copy maps that key to ['<<languages>>']. *)
Theorem languages_tuple_redacted :
  forall (d : gmap string Value) (value : Value)
         (s s' : State) (temp_layer : gmap string TempValue),
    d !! "LANGUAGES" = Some value ->
    isinstance_tuple value = true ->
    redact_items (map_to_list d) ∅ s = (Ok temp_layer, s') ->
    temp_layer !! "LANGUAGES" = Some (Placeholder "<<languages>>").
Proof.
  intros d value s s' temp_layer Hkey Htuple Hrun.
  destruct (redact_layer_lookup _ _ _ _ _ _ Hkey Hrun) as (tv & Hred & Htv).
  unfold redacted in Hred. unfold isinstance_tuple in Htuple.
  destruct (v_class value); try done. simpl in Hred. by simplify_eq.
Qed.



(** X6: the redacted copy of a layer has exactly the keys of the
    layer. *)
Theorem redaction_keeps_keys :
  forall (d : gmap string Value) (s s' : State)
         (temp_layer : gmap string TempValue),
    redact_items (map_to_list d) ∅ s = (Ok temp_layer, s') ->
    dom temp_layer = dom d.
Proof.
  intros d s s' temp_layer Hrun. apply set_eq. intros k.
  rewrite !elem_of_dom. split.
  - intros [tv Htv]. destruct (d !! k) as [v | ] eqn:Hk; [by eexists | ].
    assert (k ∉ (map_to_list d).*1) as Hfresh.
    { intros Hin. apply list_elem_of_fmap in Hin as ([k' v] & -> & Hin).
      apply elem_of_map_to_list in Hin. simpl in Hk. congruence. }
    rewrite (redact_items_other _ _ _ _ _ _ Hrun Hfresh) in Htv.
    by rewrite lookup_empty in Htv.
  - intros [v Hk].
    destruct (redact_layer_lookup _ _ _ _ _ _ Hk Hrun) as (tv & _ & Htv).
    by eexists.
Qed.


(** *** The handler as a whole *)

(** X8: when the pretty-printer raises [UnicodeEncodeError] for a layer
    that is not cached, processing that layer raises [KeyError]; the
    cache and the records are as before. *)
Theorem encode_error_gives_KeyError :
  forall (context_layer : Layer) (d : gmap string Value)
         (context_list : list string) (s : State)
         (temp_layer : gmap string TempValue),
    layer_items context_layer = Some d ->
    seen_contexts s !! context_layer_id (layer_id context_layer) d = None ->
    fst (redact_items (map_to_list d) ∅ s) = Ok temp_layer ->
    pformat repr_str layout temp_layer = Raise UnicodeEncodeError ->
    fst (store_layer repr_str layout context_layer context_list s) = Raise KeyError /\
    seen_contexts (snd (store_layer repr_str layout context_layer context_list s))
      = seen_contexts s /\
    templates (snd (store_layer repr_str layout context_layer context_list s))
      = templates s.
Proof.
  intros context_layer d context_list s temp_layer Hd Hseen Hred Hfmt.
  set (k := context_layer_id (layer_id context_layer) d) in *.
  set (s0 := set_redaction_runs (redaction_runs s ++ [k])%list s).
  destruct (redact_items (map_to_list d) ∅ s0) as [r s1] eqn:Hrun.
  assert (r = Ok temp_layer) as ->.
  { rewrite <- Hred, (redact_items_result _ _ s s0). by rewrite Hrun. }
  rewrite (store_layer_encode_error repr_str layout _ _ context_list s s1
             temp_layer Hd Hseen Hrun Hfmt).
  destruct (redact_items_state (map_to_list d) ∅ s0) as [b Hst].
  rewrite Hrun in Hst. simpl in Hst. by subst s1.
Qed.

Lemma store_layers_blocks layers :
  forall (context_list context_list' : list string) (s s' : State),
    store_layers repr_str layout layers context_list s = (Ok context_list', s') ->
    exists blocks,
      context_list' = (context_list ++ blocks)%list /\
      Forall2 (fun k text => seen_contexts s' !! k = Some text)
              (mapping_keys layers) blocks.
Proof.
  induction layers as [ | context_layer rest IH];
    intros context_list context_list' s s' Hrun; simpl in *.
  - unfold ret in Hrun. simplify_eq. exists []. by rewrite app_nil_r.
  - unfold bind in Hrun.
    destruct (store_layer repr_str layout context_layer context_list s)
      as [[context_list1 | e] s1] eqn:Hlayer; [ | done].
    destruct (IH _ _ _ _ Hrun) as (blocks & -> & Hblocks).
    unfold mapping_keys. simpl. fold (mapping_keys rest).
    destruct (layer_items context_layer) as [d | ] eqn:Hd; simpl.
    + destruct (store_layer_ok_cached repr_str layout _ _ _ _ _ _ Hd Hlayer)
        as (text & -> & Hseen).
      exists (text :: blocks). split; [by rewrite <- app_assoc | ].
      constructor; [ | done].
      pose proof (cached_store_layers repr_str layout _ text _ rest
                    (context_list ++ [text])%list s1 (conj Hseen eq_refl))
        as [Hkept _].
      by rewrite Hrun in Hkept.
    + rewrite store_layer_not_mapping in Hlayer by done. simplify_eq.
      by exists blocks.
Qed.

(** X9: when the handler returns on a template that is not the
    toolbar's, it has appended one record, with the reference of the
    template, the [context_processors] of the context and one text block
    for each mapping-like layer, in order; each block is the text the
    cache holds for the key of its layer.  Layers that are not
    mapping-like contribute nothing. *)
Theorem captured_record :
  forall (ev : Event) (s s' : State),
    is_toolbar_template (t_name (heap s !!! ev_template ev)) = false ->
    _store_template_info repr_str layout ev s = (Ok tt, s') ->
    exists blocks,
      templates s' =
        (templates s ++
           [mkRecord (ev_template ev) blocks
                     (c_context_processors (ev_context ev))])%list /\
      Forall2 (fun k text => seen_contexts s' !! k = Some text)
              (mapping_keys (c_dicts (ev_context ev))) blocks.
Proof.
  intros ev s s' Hskip Hrun. rewrite handler_capture in Hrun by done.
  destruct (store_layers repr_str layout (c_dicts (ev_context ev)) [] s)
    as [[context_list | e] s1] eqn:Hlayers; [ | done].
  simplify_eq.
  destruct (store_layers_blocks _ _ _ _ _ Hlayers) as (blocks & -> & Hblocks).
  pose proof (store_layers_same_records repr_str layout
                (c_dicts (ev_context ev)) [] s) as (_ & Htpl & _).
  rewrite Hlayers in Htpl. simpl in *. exists blocks. by rewrite Htpl.
Qed.

(** X10: a capture that raises leaves no trace in the records: the
    list of records, the template objects and the report are as
    before. *)
Theorem failed_capture_appends_nothing :
  forall (ev : Event) (s : State) (e : exn),
    fst (_store_template_info repr_str layout ev s) = Raise e ->
    templates (snd (_store_template_info repr_str layout ev s)) = templates s /\
    heap (snd (_store_template_info repr_str layout ev s)) = heap s /\
    stats (snd (_store_template_info repr_str layout ev s)) = stats s.
Proof.
  intros ev s e Hraise.
  destruct (is_toolbar_template (t_name (heap s !!! ev_template ev))) eqn:Hskip.
  - by rewrite handler_skip in Hraise |- *.
  - rewrite handler_capture in Hraise |- * by done.
    pose proof (store_layers_same_records repr_str layout
                  (c_dicts (ev_context ev)) [] s) as (Hheap & Htpl & _ & Hstats).
    by destruct (store_layers _ _ _ _ _) as [[context_list | e'] s1].
Qed.

Lemma run_events_heap (evs : list Event) :
  forall s : State, heap (run_events repr_str layout evs s) = heap s.
Proof.
  unfold run_events.
  induction evs as [ | ev evs IH]; intros s; simpl; [done | ].
  rewrite IH. apply handler_heap.
Qed.

(** X11: whatever render events a new panel receives, none of its
    records refers to a template whose name starts with
    ['debug_toolbar/']. *)
Theorem new_panel_never_captures_toolbar :
  forall (evs : list Event) (h : gmap loc Template) (show : bool)
         (r : RenderRecord) (name : string),
    r ∈ templates (run_events repr_str layout evs (new_panel h show)) ->
    t_name (h !!! rr_template r) = NameStr name ->
    String.prefix "debug_toolbar/" name = false.
Proof.
  intros evs h show r name Hr Hname.
  pose proof (toolbar_templates_never_captured repr_str layout evs
                (new_panel h show)) as Hinv.
  rewrite run_events_heap in Hinv. simpl in Hinv.
  assert (forall r0, r0 ∈ templates (new_panel h show) ->
            is_toolbar_template (t_name (h !!! rr_template r0)) = false) as Hnone.
  { intros r0 Hr0. by apply elem_of_nil in Hr0. }
  specialize (Hinv Hnone r Hr). by rewrite Hname in Hinv.
Qed.

(** *** The report, further *)

Lemma labelled_insert (h : gmap loc Template) (l l' : loc) :
  labelled h l \/ l' = l ->
  labelled (<[l' := set_origin_name (origin_display (h !!! l')) (h !!! l')]> h) l.
Proof.
  intros Hl. destruct (decide (l' = l)) as [-> | Hne].
  - eexists. split; [apply lookup_insert_eq | done].
  - destruct Hl as [(t & Ht & Hlab) | Heq]; [ | done].
    exists t. by rewrite lookup_insert_ne.
Qed.

Lemma label_templates_keeps_labelled records :
  forall (h : gmap loc Template) (l : loc),
    labelled h l -> labelled (label_templates records h) l.
Proof.
  induction records as [ | r rest IH]; intros h l Hl; simpl; [done | ].
  apply IH, labelled_insert. by left.
Qed.

Lemma label_templates_all_labelled records :
  forall (h : gmap loc Template) (r : RenderRecord),
    r ∈ records -> labelled (label_templates records h) (rr_template r).
Proof.
  induction records as [ | r0 rest IH]; intros h r Hin; simpl.
  - by apply elem_of_nil in Hin.
  - apply elem_of_cons in Hin as [-> | Hin]; [ | by apply IH].
    apply label_templates_keeps_labelled, labelled_insert. by right.
Qed.

Lemma set_origin_name_labelled (t : Template) :
  t_origin_name t = Some (origin_display t) ->
  set_origin_name (origin_display t) t = t.
Proof. destruct t as [n o on e b]. simpl. by intros ->. Qed.

(** Labelling a store whose templates carry their labels changes
    nothing. *)
Lemma label_templates_fixed records :
  forall h : gmap loc Template,
    (forall r, r ∈ records -> labelled h (rr_template r)) ->
    label_templates records h = h.
Proof.
  induction records as [ | r rest IH]; intros h Hall; simpl; [done | ].
  destruct (Hall r) as (t & Ht & Hlab); [by left | ].
  rewrite (lookup_total_correct _ _ _ Ht), (set_origin_name_labelled _ Hlab).
  rewrite (insert_id _ _ _ Ht). apply IH. intros r' Hr'. apply Hall. by right.
Qed.

Lemma engine_dirs_label records (h : gmap loc Template) (l : loc) :
  engine_dirs (label_templates records h !!! l) = engine_dirs (h !!! l).
Proof.
  unfold engine_dirs.
  by destruct (label_templates_attrs records h l) as (_ & _ & -> & ->).
Qed.

(** X12: [generate_stats] is idempotent: called again on the state it
    left, it has the same outcome and leaves the same state, the same
    report included. *)
Theorem generate_stats_idempotent :
  forall s : State,
    generate_stats normpath (snd (generate_stats normpath s))
      = generate_stats normpath s.
Proof.
  intros s.
  set (h1 := label_templates (templates s) (heap s)).
  assert (label_templates (templates s) h1 = h1) as Hfixed.
  { apply label_templates_fixed. intros r Hr.
    by apply label_templates_all_labelled. }
  rewrite (generate_stats_spec normpath s). simpl. fold h1.
  destruct (templates s) as [ | first rest] eqn:Htpl.
  - rewrite generate_stats_spec. simpl. by rewrite Htpl.
  - pose proof (engine_dirs_label (first :: rest) (heap s) (rr_template first))
      as Hdirs.
    fold h1 in Hdirs.
    destruct (engine_dirs (heap s !!! rr_template first)) as [template_dirs | ]
      eqn:Hsource;
      rewrite generate_stats_spec; simpl; rewrite Htpl, Hfixed, Hdirs; done.
Qed.

(** X13: when the first captured template has neither an engine nor a
    backend, [generate_stats] raises [AttributeError]: no report is
    recorded, and the records and the cache are as before. *)
Theorem generate_stats_without_engine :
  forall (s : State) (first : RenderRecord) (rest : list RenderRecord),
    templates s = first :: rest ->
    t_engine (heap s !!! rr_template first) = None ->
    t_backend (heap s !!! rr_template first) = None ->
    fst (generate_stats normpath s) = Raise AttributeError /\
    stats (snd (generate_stats normpath s)) = stats s /\
    templates (snd (generate_stats normpath s)) = templates s /\
    seen_contexts (snd (generate_stats normpath s)) = seen_contexts s.
Proof.
  intros s first rest Htpl Hengine Hbackend.
  rewrite generate_stats_spec. simpl. rewrite Htpl.
  unfold engine_dirs. by rewrite Hengine, Hbackend.
Qed.

(** X14: the shared fields of the report come from the first record
    alone: [template_dirs] is the normalized [dirs] of the engine of its
    template, or of its backend when it has no engine, and
    [context_processors] is that of the first record, whatever the later
    records hold. *)
Theorem report_shared_fields :
  forall (s : State) (first : RenderRecord) (rest : list RenderRecord)
         (source : Engine),
    templates s = first :: rest ->
    t_engine (heap s !!! rr_template first) = Some source \/
    (t_engine (heap s !!! rr_template first) = None /\
     t_backend (heap s !!! rr_template first) = Some source) ->
    exists report,
      fst (generate_stats normpath s) = Ok tt /\
      stats (snd (generate_stats normpath s)) = Some report /\
      st_template_dirs report = map normpath (dirs source) /\
      st_context_processors report = rr_context_processors first.
Proof.
  intros s first rest source Htpl Hsource.
  rewrite generate_stats_spec. simpl. rewrite Htpl.
  assert (engine_dirs (heap s !!! rr_template first) = Some (dirs source)) as ->.
  { unfold engine_dirs. by destruct Hsource as [-> | [-> ->]]. }
  by eexists.
Qed.

(** *** [nav_subtitle] *)

(** X15: once a template has been captured, [nav_subtitle] is settled:
    no later step of the panel changes it. *)
Theorem nav_subtitle_settled :
  forall s s' : State,
    templates s <> [] ->
    rtc (panel_step repr_str layout normpath) s s' ->
    nav_subtitle s' = nav_subtitle s.
Proof.
  intros s s' Hsome Hsteps.
  destruct (extends_steps _ _ Hsteps) as (Hnames & [more Hmore] & _).
  unfold nav_subtitle. rewrite Hmore.
  destruct (templates s) as [ | first rest]; [done | ]. simpl. apply Hnames.
Qed.

End Further.

(** ** [bind_template] and the patch of [Template._render] *)

Lemma run_processors_returns processors :
  forall (updates : gmap string Value) (rc : RequestContext)
         (od : ContextProcessors),
    rc_context_processors rc = Some od ->
    Forall returns processors ->
    run_processors processors updates rc =
      (Ok (merged_updates processors updates),
       set_rc_context_processors (Some (recorded_processors processors od)) rc).
Proof.
  induction processors as [ | processor rest IH]; intros updates rc od Hod Hall;
    simpl.
  - destruct rc. simpl in *. by subst.
  - apply Forall_cons in Hall as [[context Hcall] Hall].
    unfold processor_context, processor_name. rewrite Hcall, Hod. simpl.
    by rewrite (IH _ _ (odict_set (p_module processor ++ "." ++ p_name processor)
                          context od)).
Qed.

Lemma run_processors_raises (before : list Processor) :
  forall (processor : Processor) (after : list Processor) (e : exn)
         (updates : gmap string Value) (rc : RequestContext),
    Forall returns before ->
    p_call processor = Raise e ->
    exists cp,
      run_processors (before ++ processor :: after) updates rc =
        (Raise e, set_rc_context_processors cp rc).
Proof.
  induction before as [ | p0 before IH];
    intros processor after e updates rc Hall Hraise; simpl.
  - rewrite Hraise. exists (rc_context_processors rc). by destruct rc.
  - apply Forall_cons in Hall as [[context Hcall] Hall]. rewrite Hcall.
    destruct (IH processor after e (context ∪ updates)
                (set_rc_context_processors
                   (Some (odict_set (p_module p0 ++ "." ++ p_name p0) context
                            (default [] (rc_context_processors rc)))) rc)
                Hall Hraise) as [cp ->].
    by exists cp.
Qed.

(** Entering the block when the context is free, every processor
    returns and the index is in range. *)
Lemma bind_template_enter_returns (template : BoundTemplate) (rc : RequestContext) :
  rc_template rc = None ->
  Forall returns (bt_engine_processors template ++ rc_processors rc)%list ->
  rc_processors_index rc < List.length (rc_dicts rc) ->
  let processors := (bt_engine_processors template ++ rc_processors rc)%list in
  bind_template_enter template rc =
    (Ok tt,
     mkRequestContext (Some (bt_template template)) (rc_processors rc)
       (rc_processors_index rc)
       (<[rc_processors_index rc := merged_updates processors ∅]> (rc_dicts rc))
       (Some (recorded_processors processors []))).
Proof.
  intros Hfree Hall Hidx processors. unfold bind_template_enter.
  rewrite Hfree. simpl. fold processors.
  rewrite (run_processors_returns processors ∅
             (set_rc_context_processors (Some [])
                (set_rc_template (Some (bt_template template)) rc))
             [] eq_refl Hall). simpl.
  unfold list_setitem. by rewrite decide_True.
Qed.

(** X16: binding a context that is already bound raises [RuntimeError]
    before anything is written: the body does not run and the context is
    as it was. *)
Theorem bind_template_already_bound :
  forall (A : Type) (template : BoundTemplate)
         (body : RequestContext -> res A * RequestContext)
         (rc : RequestContext) (current : loc),
    rc_template rc = Some current ->
    with_bind_template template body rc
      = (Raise (OtherException "RuntimeError"), rc).
Proof.
  intros A template body rc current Hbound.
  unfold with_bind_template, bind_template_enter. by rewrite Hbound.
Qed.


(** X18: when a context processor raises, the exception leaves
    [bind_template] with the context still bound to the template (the
    [finally] block covers the [yield] only): the body does not run, the
    layers are untouched, and every later attempt to bind that context
    raises [RuntimeError]. *)
Theorem failed_processor_leaves_bound :
  forall (A : Type) (template : BoundTemplate)
         (body : RequestContext -> res A * RequestContext)
         (rc : RequestContext)
         (before after : list Processor) (processor : Processor) (e : exn),
    rc_template rc = None ->
    (bt_engine_processors template ++ rc_processors rc)%list
      = (before ++ processor :: after)%list ->
    Forall returns before ->
    p_call processor = Raise e ->
    exists rc',
      with_bind_template template body rc = (Raise e, rc') /\
      rc_template rc' = Some (bt_template template) /\
      rc_dicts rc' = rc_dicts rc /\
      forall (template2 : BoundTemplate)
             (body2 : RequestContext -> res A * RequestContext),
        with_bind_template template2 body2 rc'
          = (Raise (OtherException "RuntimeError"), rc').
Proof.
  intros A template body rc before after processor e Hfree Hsplit Hall Hraise.
  unfold with_bind_template at 1. unfold bind_template_enter.
  rewrite Hfree. simpl. rewrite Hsplit.
  destruct (run_processors_raises before processor after e ∅
              (set_rc_context_processors (Some [])
                 (set_rc_template (Some (bt_template template)) rc))
              Hall Hraise) as [cp ->].
  eexists. split; [done | ]. split; [done | ]. split; [done | ].
  intros template2 body2.
  unfold with_bind_template, bind_template_enter. done.
Qed.

Lemma merged_updates_app (before after : list Processor)
    (updates : gmap string Value) :
  merged_updates (before ++ after) updates
    = merged_updates after (merged_updates before updates).
Proof. unfold merged_updates. apply foldl_app. Qed.

Lemma merged_updates_keeps (processors : list Processor) (k : string) :
  forall updates : gmap string Value,
    (forall processor, processor ∈ processors ->
                       processor_context processor !! k = None) ->
    merged_updates processors updates !! k = updates !! k.
Proof.
  induction processors as [ | processor rest IH]; intros updates Hnone; simpl;
    [done | ].
  change (merged_updates rest (processor_context processor ∪ updates) !! k
          = updates !! k).
  rewrite IH.
  - apply lookup_union_r. apply Hnone. by left.
  - intros p' Hp'. apply Hnone. by right.
Qed.

(** X19: in the layer [bind_template] installs at [_processors_index],
    a key has the value of the last processor that returns it: the
    engine's processors come first, then the context's own, and a later
    one overrides an earlier one. *)
Theorem later_processor_wins :
  forall (template : BoundTemplate) (rc : RequestContext)
         (before after : list Processor) (processor : Processor)
         (context : gmap string Value) (k : string) (v : Value),
    rc_template rc = None ->
    rc_processors_index rc < List.length (rc_dicts rc) ->
    (bt_engine_processors template ++ rc_processors rc)%list
      = (before ++ processor :: after)%list ->
    Forall returns (before ++ processor :: after)%list ->
    p_call processor = Ok context ->
    context !! k = Some v ->
    (forall p' context', p' ∈ after -> p_call p' = Ok context' ->
                         context' !! k = None) ->
    exists rc1 updates,
      bind_template_enter template rc = (Ok tt, rc1) /\
      rc_dicts rc1 !! rc_processors_index rc = Some updates /\
      updates !! k = Some v.
Proof.
  intros template rc before after processor context k v
    Hfree Hidx Hsplit Hall Hcall Hk Hafter.
  rewrite <- Hsplit in Hall.
  rewrite (bind_template_enter_returns template rc Hfree Hall Hidx).
  eexists _, _. split; [done | ]. simpl. split.
  - by apply list_lookup_insert_eq.
  - rewrite Hsplit, merged_updates_app. simpl.
    change (merged_updates after
              (processor_context processor ∪ merged_updates before ∅) !! k
            = Some v).
    rewrite merged_updates_keeps.
    + apply lookup_union_Some_l. unfold processor_context. by rewrite Hcall.
    + intros p' Hp'. rewrite Hsplit in Hall.
      apply Forall_app in Hall as [_ Hall].
      apply Forall_cons in Hall as [_ Hall].
      rewrite Forall_forall in Hall. destruct (Hall p' Hp') as [context' Hc'].
      unfold processor_context. rewrite Hc'. simpl. by eapply Hafter.
Qed.

Lemma odict_set_fresh (name : string) (context : gmap string Value)
    (od : ContextProcessors) :
  name ∉ od.*1 -> odict_set name context od = (od ++ [(name, context)])%list.
Proof.
  induction od as [ | [name' context'] od IH]; intros Hfresh; simpl; [done | ].
  apply not_elem_of_cons in Hfresh as [Hne Hfresh].
  assert (String.eqb name' name = false) as ->.
  { apply String.eqb_neq. intros Heq. by apply Hne. }
  by rewrite IH.
Qed.

Lemma recorded_processors_distinct processors :
  forall od : ContextProcessors,
    NoDup (od.*1 ++ map processor_name processors) ->
    recorded_processors processors od =
      (od ++ map (fun p => (processor_name p, processor_context p)) processors)%list.
Proof.
  induction processors as [ | processor rest IH]; intros od Hnd; simpl.
  - by rewrite app_nil_r.
  - change (recorded_processors rest
              (odict_set (processor_name processor) (processor_context processor) od)
            = (od ++ (processor_name processor, processor_context processor)
                  :: map (fun p => (processor_name p, processor_context p)) rest)%list).
    assert (processor_name processor ∉ od.*1) as Hfresh.
    { apply NoDup_app in Hnd as (_ & Hdisj & _). intros Hin.
      apply (Hdisj _ Hin). by left. }
    rewrite (odict_set_fresh _ _ _ Hfresh), IH.
    + by rewrite <- app_assoc.
    + rewrite fmap_app. simpl. rewrite <- app_assoc. simpl.
      by apply NoDup_app in Hnd as Hnd'; apply NoDup_app.
Qed.

(** X20: when the processors have distinct dotted names,
    [context_processors] lists, after binding, each processor's name
    with the dict it returned, in the order the processors ran: the
    engine's first, then the context's own. *)
Theorem context_processors_recorded :
  forall (template : BoundTemplate) (rc : RequestContext),
    rc_template rc = None ->
    rc_processors_index rc < List.length (rc_dicts rc) ->
    Forall returns (bt_engine_processors template ++ rc_processors rc)%list ->
    NoDup (map processor_name (bt_engine_processors template ++ rc_processors rc)%list) ->
    exists rc1,
      bind_template_enter template rc = (Ok tt, rc1) /\
      rc_context_processors rc1 =
        Some (map (fun p => (processor_name p, processor_context p))
                  (bt_engine_processors template ++ rc_processors rc)%list).
Proof.
  intros template rc Hfree Hidx Hall Hnd.
  rewrite (bind_template_enter_returns template rc Hfree Hall Hidx).
  eexists. split; [done | ]. simpl.
  by rewrite (recorded_processors_distinct _ [] Hnd).
Qed.

(** X21: the patch of [Template._render] can be applied again without
    harm: after one or two applications [_render] is
    [instrumented_test_render] and [original_render] is the function
    [_render] was before the first. *)
Theorem patch_render_keeps_original :
  forall (c : TemplateClass) (name : string),
    _render c = other_render name ->
    patch_render (patch_render c) = patch_render c /\
    _render (patch_render c) = instrumented_test_render /\
    original_render (patch_render c) = Some (other_render name).
Proof.
  intros [render original] name Hrender. simpl in Hrender. subst render.
  by vm_compute.
Qed.

(** ** The further properties at concrete inputs *)

Lemma recording_stays_on_witness :
  let s' :=
    snd (_store_template_info Sample.repr_str Sample.layout
           Sample.render_unprintable Sample.panel) in
  recording_enabled Sample.panel = true /\ recording_enabled s' = true.
Proof.
  intros s'. split; [reflexivity | ].
  apply (recording_stays_on Sample.repr_str Sample.layout Sample.normpath
           Sample.panel s').
  - reflexivity.
  - apply rtc_once. apply step_render.
Defined.

Lemma records_and_cache_grow_witness :
  let s := Sample.panel_after_a in
  let s' := snd (generate_stats Sample.normpath s) in
  templates s `prefix_of` templates s' /\ seen_contexts s ⊆ seen_contexts s'.
Proof.
  intros s s'.
  apply (records_and_cache_grow Sample.repr_str Sample.layout Sample.normpath s s').
  apply rtc_once. apply step_stats.
Defined.

Lemma languages_tuple_redacted_witness :
  let run := redact_items (map_to_list Sample2.languages_dict) ∅ Sample.panel in
  let temp_layer := ok_or ∅ (fst run) in
  run = (Ok temp_layer, snd run) /\
  temp_layer !! "LANGUAGES" = Some (Placeholder "<<languages>>").
Proof.
  intros run temp_layer. split; [vm_compute; reflexivity | ].
  apply (languages_tuple_redacted Sample2.languages_dict Sample2.languages
           Sample.panel (snd run) temp_layer);
    vm_compute; reflexivity.
Defined.



Lemma redaction_keeps_keys_witness :
  let run := redact_items (map_to_list Sample2.mixed_dict) ∅ Sample.panel in
  let temp_layer := ok_or ∅ (fst run) in
  run = (Ok temp_layer, snd run) /\
  dom temp_layer = dom Sample2.mixed_dict.
Proof.
  intros run temp_layer. split; [vm_compute; reflexivity | ].
  apply (redaction_keeps_keys Sample2.mixed_dict Sample.panel (snd run) temp_layer).
  vm_compute. reflexivity.
Defined.


Lemma encode_error_gives_KeyError_witness :
  let run :=
    store_layer Sample.repr_str Sample.layout Sample.unprintable_layer []
      Sample.panel in
  fst run = Raise KeyError /\
  seen_contexts (snd run) = seen_contexts Sample.panel /\
  templates (snd run) = templates Sample.panel.
Proof.
  apply (encode_error_gives_KeyError Sample.repr_str Sample.layout
           Sample.unprintable_layer Sample.unprintable_dict [] Sample.panel
           (<["x" := Kept Sample.unprintable]> ∅));
    vm_compute; reflexivity.
Defined.

Lemma captured_record_witness :
  let run :=
    _store_template_info Sample.repr_str Sample.layout Sample2.render_layers
      Sample.panel in
  run = (Ok tt, snd run) /\
  exists blocks,
    templates (snd run) =
      (templates Sample.panel ++ [mkRecord 1 blocks (Some [])])%list /\
    Forall2 (fun k text => seen_contexts (snd run) !! k = Some text)
            (mapping_keys (c_dicts (ev_context Sample2.render_layers))) blocks.
Proof.
  intros run. split; [vm_compute; reflexivity | ].
  apply (captured_record Sample.repr_str Sample.layout Sample2.render_layers
           Sample.panel (snd run));
    vm_compute; reflexivity.
Defined.

Lemma failed_capture_appends_nothing_witness :
  let run :=
    _store_template_info Sample.repr_str Sample.layout Sample.render_broken
      Sample.panel_after_a in
  fst run = Raise (OtherException "ValueError") /\
  templates (snd run) = templates Sample.panel_after_a /\
  heap (snd run) = heap Sample.panel_after_a /\
  stats (snd run) = stats Sample.panel_after_a.
Proof.
  intros run. split; [vm_compute; reflexivity | ].
  apply (failed_capture_appends_nothing Sample.repr_str Sample.layout
           Sample.render_broken Sample.panel_after_a
           (OtherException "ValueError")).
  vm_compute. reflexivity.
Defined.

Lemma new_panel_never_captures_toolbar_witness :
  let evs := [Sample.render_toolbar; Sample.render_a; Sample.render_toolbar] in
  let r := mkRecord 1 ["{'a': 2, 'x': 1}"; "{'a': 2, 'x': 1}"] None in
  r ∈ templates (run_events Sample.repr_str Sample.layout evs
                   (new_panel Sample.store true)) /\
  String.prefix "debug_toolbar/" "a.html" = false.
Proof.
  intros evs r.
  assert (r ∈ templates (run_events Sample.repr_str Sample.layout evs
                           (new_panel Sample.store true))) as Hr
    by (vm_compute; left).
  split; [exact Hr | ].
  apply (new_panel_never_captures_toolbar Sample.repr_str Sample.layout evs
           Sample.store true r "a.html" Hr).
  vm_compute. reflexivity.
Defined.

Lemma generate_stats_without_engine_witness :
  fst (generate_stats Sample.normpath Sample2.panel_bare) = Raise AttributeError /\
  stats (snd (generate_stats Sample.normpath Sample2.panel_bare)) = None.
Proof.
  destruct (generate_stats_without_engine Sample.normpath Sample2.panel_bare
              (mkRecord 4 [] None) [] eq_refl)
    as (Hraise & Hstats & _); [vm_compute; reflexivity .. | ].
  split; [exact Hraise | exact Hstats].
Defined.

Lemma report_shared_fields_witness :
  exists report,
    fst (generate_stats Sample.normpath Sample2.panel_jinja) = Ok tt /\
    stats (snd (generate_stats Sample.normpath Sample2.panel_jinja)) = Some report /\
    st_template_dirs report = map Sample.normpath ["/srv/app/jinja2"] /\
    st_context_processors report = None.
Proof.
  apply (report_shared_fields Sample.normpath Sample2.panel_jinja
           (mkRecord 5 ["{}"] None) [mkRecord 1 [] (Some [])] Sample2.backend).
  - reflexivity.
  - right. split; vm_compute; reflexivity.
Defined.

Lemma nav_subtitle_settled_witness :
  let s := Sample.panel_after_a in
  let s' :=
    snd (_store_template_info Sample.repr_str Sample.layout
           Sample.render_unnamed s) in
  List.length (templates s') = 2 /\
  nav_subtitle s' = nav_subtitle s /\
  nav_subtitle s = NameStr "a.html".
Proof.
  intros s s'. split; [vm_compute; reflexivity | ]. split.
  - apply (nav_subtitle_settled Sample.repr_str Sample.layout Sample.normpath s s').
    + vm_compute. discriminate.
    + apply rtc_once. apply step_render.
  - vm_compute. reflexivity.
Defined.

Lemma bind_template_already_bound_witness :
  rc_template Sample2.bound_context = Some 2%positive /\
  with_bind_template Sample2.bound_template Sample2.failing_body
    Sample2.bound_context
    = (Raise (OtherException "RuntimeError"), Sample2.bound_context).
Proof.
  split; [reflexivity | ].
  apply (bind_template_already_bound unit Sample2.bound_template
           Sample2.failing_body Sample2.bound_context 2%positive).
  reflexivity.
Defined.


Lemma failed_processor_leaves_bound_witness :
  exists rc',
    with_bind_template Sample2.bound_template Sample2.failing_body
      Sample2.failing_context = (Raise (OtherException "KeyError"), rc') /\
    rc_template rc' = Some (bt_template Sample2.bound_template) /\
    rc_dicts rc' = rc_dicts Sample2.failing_context /\
    forall (template2 : BoundTemplate)
           (body2 : RequestContext -> res unit * RequestContext),
      with_bind_template template2 body2 rc'
        = (Raise (OtherException "RuntimeError"), rc').
Proof.
  apply (failed_processor_leaves_bound unit Sample2.bound_template
           Sample2.failing_body Sample2.failing_context
           [Sample2.debug_processor; Sample2.i18n_processor]
           [Sample2.site_processor] Sample2.broken_processor
           (OtherException "KeyError")).
  - reflexivity.
  - reflexivity.
  - repeat constructor; eexists; reflexivity.
  - reflexivity.
Defined.

Lemma later_processor_wins_witness :
  exists rc1 updates,
    bind_template_enter Sample2.bound_template Sample2.request_context
      = (Ok tt, rc1) /\
    rc_dicts rc1 !! rc_processors_index Sample2.request_context = Some updates /\
    updates !! "debug" = Some (Sample.number "False").
Proof.
  apply (later_processor_wins Sample2.bound_template Sample2.request_context
           [Sample2.debug_processor; Sample2.i18n_processor] []
           Sample2.site_processor
           (<["debug" := Sample.number "False"]> ∅) "debug" (Sample.number "False")).
  - reflexivity.
  - vm_compute. lia.
  - reflexivity.
  - repeat constructor; eexists; reflexivity.
  - reflexivity.
  - vm_compute. reflexivity.
  - intros p' context' Hin. by apply elem_of_nil in Hin.
Defined.

Lemma context_processors_recorded_witness :
  exists rc1,
    bind_template_enter Sample2.bound_template Sample2.request_context
      = (Ok tt, rc1) /\
    rc_context_processors rc1 =
      Some (map (fun p => (processor_name p, processor_context p))
                (bt_engine_processors Sample2.bound_template
                   ++ rc_processors Sample2.request_context)%list).
Proof.
  apply (context_processors_recorded Sample2.bound_template Sample2.request_context).
  - reflexivity.
  - vm_compute. lia.
  - repeat constructor; eexists; reflexivity.
  - apply (bool_decide_unpack
             (NoDup (map processor_name
                       (bt_engine_processors Sample2.bound_template
                          ++ rc_processors Sample2.request_context)%list))).
    vm_compute. exact I.
Defined.

Lemma patch_render_keeps_original_witness :
  _render Sample2.template_class = other_render "Template._render" /\
  patch_render (patch_render Sample2.template_class)
    = patch_render Sample2.template_class /\
  _render (patch_render Sample2.template_class) = instrumented_test_render /\
  original_render (patch_render Sample2.template_class)
    = Some (other_render "Template._render").
Proof.
  split; [reflexivity | ].
  apply (patch_render_keeps_original Sample2.template_class "Template._render").
  reflexivity.
Defined.
